(** * clean_front: session lifecycle and data-access glue

    A shallow embedding of the browser client's authentication context
    (AuthProvider), the estimate API module, the commission query hooks and
    the page handlers of MyEstimates, CommissionWrite and PartnerEdit.

    The browser is a record [World]: the persisted storage (localStorage),
    the React state of the authentication provider, the React state of the
    mounted page, and a chronological trace of the observable effects
    (HTTP calls, mutations, dialogs, navigation, console output).
    Handlers are computations in a state-and-exception monad over [World].
    Every [await] of the source receives the outcome of the awaited
    request as an argument of the handler: the remote services are opaque. *)

From Stdlib Require Import ZArith String List Bool.
From stdpp Require Import base option gmap strings list pretty.

Open Scope string_scope.
Open Scope list_scope.

(** ** JavaScript values *)

(** A string is truthy unless it is empty. *)
Definition truthy (s : string) : bool :=
  match s with
  | EmptyString => false
  | String _ _ => true
  end.

(** The value of [localStorage.getItem]: a string or null. *)
Definition truthy_item (v : option string) : bool :=
  match v with
  | Some s => truthy s
  | None => false
  end.

(** A string-or-null inside a template literal. *)
Definition template (v : option string) : string :=
  match v with
  | Some s => s
  | None => "null"
  end.

(** Values thrown by the awaited operations. *)
Inductive Exn : Type :=
  | NetworkFailure
  | ServerRejection (status : Z)
  | RangeError.

Inductive Outcome (A : Type) : Type :=
  | Returned (a : A)
  | Thrown (e : Exn).
Arguments Returned {A} a.
Arguments Thrown {A} e.

(** ** Records exchanged with the partner service *)

Record Estimate : Type := mkEstimate {
  id : Z;
  commissionId : Z;
  tmpPrice : Z;
  statement : string;
  fixedDate : string
}.

(** The argument of [createEstimate]. *)
Record EstimateDraft : Type := mkEstimateDraft {
  draft_commissionId : Z;
  draft_tmpPrice : Z;
  draft_statement : string;
  draft_fixedDate : string
}.

(** [Partial<Estimate>]: every field optional. *)
Record EstimatePatch : Type := mkEstimatePatch {
  patch_id : option Z;
  patch_commissionId : option Z;
  patch_tmpPrice : option Z;
  patch_statement : option string;
  patch_fixedDate : option string
}.

(** ** Query keys of the query cache *)

Inductive KeyPart : Type :=
  | KStr (s : string)
  | KNum (n : Z).

#[global] Instance KeyPart_eq_dec : EqDecision KeyPart.
Proof. solve_decision. Defined.

#[global] Instance KeyPart_countable : Countable KeyPart :=
  inj_countable'
    (λ k, match k with KStr s => inl s | KNum n => inr n end)
    (λ x, match x with inl s => KStr s | inr n => KNum n end)
    (λ k, match k with KStr _ => eq_refl | KNum _ => eq_refl end).

(** ** HTTP calls as handed to the HTTP client *)

Inductive Client : Type :=
  | MemberApi          (* [api] of api/axiosConfig *)
  | PartnerApi         (* [partnerApiInstance] of api/partnerAxiosConfig *)
  | GlobalAxios.       (* the [axios] default instance *)

Inductive Method : Type := GET | POST | PATCH | DELETE.

Inductive Body : Type :=
  | NoBody
  | DraftBody (d : EstimateDraft)
  | PatchBody (p : EstimatePatch).

(** The per-call configuration: what the API function itself passes. *)
Record HttpCall : Type := mkHttpCall {
  client : Client;
  method : Method;
  url : string;
  body : Body;
  headers : list (string * string)
}.


(** ** The partner-edit form (PartnerEdit.tsx, interfaces at lines 16-36) *)

Record PartnerEditForm : Type := mkPartnerEditForm {
  email : string;
  password : string;
  confirmPassword : string;
  phoneNumber : string;
  managerName : string;
  companyName : string;
  businessType : string;
  partnerType : string
}.

Record FormErrors : Type := mkFormErrors {
  err_password : string;
  err_confirmPassword : string;
  err_phoneNumber : string;
  err_managerName : string;
  err_companyName : string;
  err_businessType : string;
  err_partnerType : string;
  err_general : option string
}.

(** The names of the inputs the form renders (lines 207-349). *)
Inductive FieldName : Type :=
  | F_password
  | F_confirmPassword
  | F_phoneNumber
  | F_managerName
  | F_companyName
  | F_businessType
  | F_partnerType.

(** [{...prev, [name]: value}] on the form data. *)
Definition set_field (name : FieldName) (value : string)
    (f : PartnerEditForm) : PartnerEditForm :=
  match name with
  | F_password =>
      mkPartnerEditForm (email f) value (confirmPassword f) (phoneNumber f)
        (managerName f) (companyName f) (businessType f) (partnerType f)
  | F_confirmPassword =>
      mkPartnerEditForm (email f) (password f) value (phoneNumber f)
        (managerName f) (companyName f) (businessType f) (partnerType f)
  | F_phoneNumber =>
      mkPartnerEditForm (email f) (password f) (confirmPassword f) value
        (managerName f) (companyName f) (businessType f) (partnerType f)
  | F_managerName =>
      mkPartnerEditForm (email f) (password f) (confirmPassword f) (phoneNumber f)
        value (companyName f) (businessType f) (partnerType f)
  | F_companyName =>
      mkPartnerEditForm (email f) (password f) (confirmPassword f) (phoneNumber f)
        (managerName f) value (businessType f) (partnerType f)
  | F_businessType =>
      mkPartnerEditForm (email f) (password f) (confirmPassword f) (phoneNumber f)
        (managerName f) (companyName f) value (partnerType f)
  | F_partnerType =>
      mkPartnerEditForm (email f) (password f) (confirmPassword f) (phoneNumber f)
        (managerName f) (companyName f) (businessType f) value
  end.

(** [{...prev, [name]: msg}] on the errors. *)
Definition set_error (name : FieldName) (msg : string) (e : FormErrors) : FormErrors :=
  match name with
  | F_password =>
      mkFormErrors msg (err_confirmPassword e) (err_phoneNumber e) (err_managerName e)
        (err_companyName e) (err_businessType e) (err_partnerType e) (err_general e)
  | F_confirmPassword =>
      mkFormErrors (err_password e) msg (err_phoneNumber e) (err_managerName e)
        (err_companyName e) (err_businessType e) (err_partnerType e) (err_general e)
  | F_phoneNumber =>
      mkFormErrors (err_password e) (err_confirmPassword e) msg (err_managerName e)
        (err_companyName e) (err_businessType e) (err_partnerType e) (err_general e)
  | F_managerName =>
      mkFormErrors (err_password e) (err_confirmPassword e) (err_phoneNumber e) msg
        (err_companyName e) (err_businessType e) (err_partnerType e) (err_general e)
  | F_companyName =>
      mkFormErrors (err_password e) (err_confirmPassword e) (err_phoneNumber e)
        (err_managerName e) msg (err_businessType e) (err_partnerType e) (err_general e)
  | F_businessType =>
      mkFormErrors (err_password e) (err_confirmPassword e) (err_phoneNumber e)
        (err_managerName e) (err_companyName e) msg (err_partnerType e) (err_general e)
  | F_partnerType =>
      mkFormErrors (err_password e) (err_confirmPassword e) (err_phoneNumber e)
        (err_managerName e) (err_companyName e) (err_businessType e) msg (err_general e)
  end.

(** [{...prev, general: msg}] *)
Definition set_general (msg : string) (e : FormErrors) : FormErrors :=
  mkFormErrors (err_password e) (err_confirmPassword e) (err_phoneNumber e)
    (err_managerName e) (err_companyName e) (err_businessType e)
    (err_partnerType e) (Some msg).

(** The partner record read by the page (lines 67-78). *)
Record Partner : Type := mkPartner {
  p_email : string;
  p_phoneNumber : string;
  p_managerName : string;
  p_companyName : string;
  p_businessType : string;
  p_partnerType : string
}.

(** What the page reads of a validator's result. *)
Record ValidationResult : Type := mkValidationResult {
  message : string
}.

(** Modelled from the spec: [validateConfirmPassword] of
    utils/validationUtils, which is not among the sources. Section 4.4 has
    the validators as pure checks of simple rules, "password confirmation
    match" among them, "returning a message string or an empty string for
    valid": a confirmation that does not match is reported by a non-empty
    message. *)
Definition reports_mismatch
    (validateConfirmPassword : string → string → ValidationResult) : Prop :=
  ∀ password confirmPassword : string,
    password ≠ confirmPassword →
    message (validateConfirmPassword password confirmPassword) ≠ "".

(** A route parameter inside a template literal. *)
Definition template_undefined (v : option string) : string :=
  match v with
  | Some s => s
  | None => "undefined"
  end.

(** [{...formData, password: formData.password || undefined}] *)
Record PartnerUpdate : Type := mkPartnerUpdate {
  upd_form : PartnerEditForm;
  upd_password : option string
}.

Section App.

(** [Member] (types/member) is opaque to the client; [JsNumber] is the
    carrier of the values produced by JavaScript's [Number(...)]. *)
Context {Member JsNumber : Type}.

(** ** The commission form object (CommissionWrite) *)

Inductive FormValue : Type :=
  | VNull
  | VNum (n : JsNumber)
  | VStr (s : string).

(** ** Observable effects *)

Inductive MutationVars : Type :=
  | NoVars
  | CommissionVars (payload : gmap string FormValue)
  | PartnerVars (payload : PartnerUpdate).

Inductive Effect : Type :=
  | Http (c : HttpCall)
  | Mutate (hook : string) (vars : MutationVars)
  | ConsoleLog
  | ConsoleError (label : string)
  | Confirm (question : string)
  | Alert (text : string)
  | Navigate (path : string).

Definition http_calls (t : list Effect) : list HttpCall :=
  omap (λ e, match e with Http c => Some c | _ => None end) t.

Definition mutations (t : list Effect) : list (string * MutationVars) :=
  omap (λ e, match e with Mutate h v => Some (h, v) | _ => None end) t.

Definition alerts (t : list Effect) : list string :=
  omap (λ e, match e with Alert a => Some a | _ => None end) t.

(** ** The world *)

(** React state of AuthProvider. part_000 has the three cells; part_001
    has no [loading] cell and is the same provider with that cell inert. *)
Record AuthState : Type := mkAuthState {
  isAuthenticated : bool;
  member : option Member;
  loading : bool
}.

Record World (P : Type) : Type := mkWorld {
  storage : gmap string string;
  auth : AuthState;
  page : P;
  trace : list Effect
}.
Arguments mkWorld {P} _ _ _ _.
Arguments storage {P} _.
Arguments auth {P} _.
Arguments page {P} _.
Arguments trace {P} _.

(** ** The handler monad *)

Definition M (P A : Type) : Type := World P → Outcome A * World P.

Definition ret {P A} (a : A) : M P A := λ w, (Returned a, w).

Definition bind {P A B} (m : M P A) (k : A → M P B) : M P B :=
  λ w, match m w with
       | (Returned a, w') => k a w'
       | (Thrown e, w') => (Thrown e, w')
       end.

Definition throw {P A} (e : Exn) : M P A := λ w, (Thrown e, w).

(** [try { m } catch (error) { h error }] *)
Definition try_catch {P A} (m : M P A) (h : Exn → M P A) : M P A :=
  λ w, match m w with
       | (Returned a, w') => (Returned a, w')
       | (Thrown e, w') => h e w'
       end.

Definition result {P A} (m : M P A) (w : World P) : Outcome A := fst (m w).
Definition after {P A} (m : M P A) (w : World P) : World P := snd (m w).

Notation "x <- m ;; k" := (bind m (λ x, k))
  (at level 100, m at next level, right associativity).
Notation "m ;;; k" := (bind m (λ _, k))
  (at level 100, right associativity).

(** *** Primitive effects *)

Definition emit {P} (e : Effect) : M P unit :=
  λ w, (Returned tt, mkWorld (storage w) (auth w) (page w) (trace w ++ [e])).

Definition getItem {P} (key : string) : M P (option string) :=
  λ w, (Returned (storage w !! key), w).

Definition setItem {P} (key value : string) : M P unit :=
  λ w, (Returned tt, mkWorld (<[key := value]> (storage w)) (auth w) (page w) (trace w)).

Definition removeItem {P} (key : string) : M P unit :=
  λ w, (Returned tt, mkWorld (delete key (storage w)) (auth w) (page w) (trace w)).

Definition setAuth {P} (f : AuthState → AuthState) : M P unit :=
  λ w, (Returned tt, mkWorld (storage w) (f (auth w)) (page w) (trace w)).

(** A React state setter of the mounted page, in its functional form. *)
Definition setPage {P} (f : P → P) : M P unit :=
  λ w, (Returned tt, mkWorld (storage w) (auth w) (f (page w)) (trace w)).

(** One HTTP call; [resp] is what the awaited promise settles to. *)
Definition request {P A} (c : HttpCall) (resp : Outcome A) : M P A :=
  λ w, (resp, mkWorld (storage w) (auth w) (page w) (trace w ++ [Http c])).

(** [mutation.mutateAsync(vars)] of a data-access hook. *)
Definition mutateAsync {P A} (hook : string) (vars : MutationVars)
    (resp : Outcome A) : M P A :=
  λ w, (resp, mkWorld (storage w) (auth w) (page w) (trace w ++ [Mutate hook vars])).

(** [window.confirm]: the answer is the user's. *)
Definition window_confirm {P} (question : string) (answer : bool) : M P bool :=
  emit (Confirm question) ;;; ret answer.

Definition console_error {P} (label : string) : M P unit := emit (ConsoleError label).
Definition alert {P} (text : string) : M P unit := emit (Alert text).
Definition navigate {P} (path : string) : M P unit := emit (Navigate path).

(** ** Authentication context (unnamed/part_000, unnamed/part_001) *)

Definition setIsAuthenticated {P} (b : bool) : M P unit :=
  setAuth (λ a, mkAuthState b (member a) (loading a)).

Definition setMember {P} (m : option Member) : M P unit :=
  setAuth (λ a, mkAuthState (isAuthenticated a) m (loading a)).

Definition setloading {P} (b : bool) : M P unit :=
  setAuth (λ a, mkAuthState (isAuthenticated a) (member a) b).

(** The [useState] initial values. *)
Definition initialAuth : AuthState := mkAuthState false None true.

(** The mount effect of part_000 (lines 28-35). *)
Definition mountEffect {P} : M P unit :=
  storedToken <- getItem "token" ;;
  emit ConsoleLog ;;;
  (if truthy_item storedToken then setIsAuthenticated true else ret tt) ;;;
  setloading true.

(** The mount effect of part_001 (lines 25-30). *)
Definition mountEffect_001 {P} : M P unit :=
  storedToken <- getItem "token" ;;
  if truthy_item storedToken then setIsAuthenticated true else ret tt.

Definition logout {P} : M P unit :=
  removeItem "token" ;;;
  removeItem "refreshToken" ;;;
  setIsAuthenticated false ;;;
  setMember None.

Definition login {P} (token refreshToken : string) : M P unit :=
  setItem "token" token ;;;
  setItem "refreshToken" refreshToken ;;;
  setIsAuthenticated true.

Definition profileCall : HttpCall :=
  mkHttpCall MemberApi GET "/members/profile" NoBody [].

Definition fetchProfile {P} (resp : Outcome Member) : M P unit :=
  try_catch
    (response <- request profileCall resp ;;
     setMember (Some response))
    (λ error,
      console_error "Failed to fetch profile data:" ;;;
      logout).


(** *** Sequences of context operations

    The operations a consumer of the context can run, and the two mount
    effects. An [OpFetchProfile resp] is the whole call: the request and
    the continuation after its [await], which runs on the state current
    when the response arrives. *)
Inductive AuthOp : Type :=
  | OpMount
  | OpMount_001
  | OpLogin (token refreshToken : string)
  | OpLogout
  | OpFetchProfile (resp : Outcome Member).

Definition run_op {P} (op : AuthOp) : M P unit :=
  match op with
  | OpMount => mountEffect
  | OpMount_001 => mountEffect_001
  | OpLogin token refreshToken => login token refreshToken
  | OpLogout => logout
  | OpFetchProfile resp => fetchProfile resp
  end.

Fixpoint run_ops {P} (ops : list AuthOp) (w : World P) : World P :=
  match ops with
  | [] => w
  | op :: rest => run_ops rest (after (run_op op) w)
  end.

(** A non-null member implies an authenticated session. *)
Definition member_implies_authenticated (a : AuthState) : Prop :=
  member a ≠ None → isAuthenticated a = true.

(** Every profile response that succeeds arrives while the session is
    authenticated. *)
Fixpoint profiles_arrive_authenticated {P} (ops : list AuthOp) (w : World P) : bool :=
  match ops with
  | [] => true
  | op :: rest =>
      match op with
      | OpFetchProfile (Returned _) => isAuthenticated (auth w)
      | _ => true
      end
      && profiles_arrive_authenticated rest (after (run_op op) w)
  end.

(** ** Estimate API module (src/api/estimate.ts, lines 1-99) *)

Definition createEstimate {P} (estimate : EstimateDraft)
    (resp : Outcome Estimate) : M P Estimate :=
  token <- getItem "token" ;;
  try_catch
    (request
       (mkHttpCall PartnerApi POST "/partner/estimate" (DraftBody estimate)
          [("Authorization", "Bearer " +:+ template token)])
       resp)
    (λ error, console_error "Error creating estimate:" ;;; throw error).

Definition updateEstimate {P} (id : Z) (updateData : EstimatePatch)
    (resp : Outcome Estimate) : M P Estimate :=
  token <- getItem "token" ;;
  try_catch
    (request
       (mkHttpCall GlobalAxios PATCH ("/partner/estimate?id=" +:+ pretty id)
          (PatchBody updateData)
          [("Authorization", "Bearer " +:+ template token); ("Accept", "*/*")])
       resp)
    (λ error, console_error "Error updating estimate:" ;;; throw error).

Definition deleteEstimate {P} (id : Z) (resp : Outcome string) : M P string :=
  token <- getItem "token" ;;
  try_catch
    (request
       (mkHttpCall PartnerApi DELETE ("/partner/estimate?id=" +:+ pretty id) NoBody
          [("Authorization", "Bearer " +:+ template token)])
       resp)
    (λ error, console_error "Error deleting estimate:" ;;; throw error).

Definition getEstimateList {P} (resp : Outcome (list Estimate)) : M P (list Estimate) :=
  try_catch
    (request (mkHttpCall PartnerApi GET "/partner/estimate/list" NoBody []) resp)
    (λ error, console_error "Error fetching estimates list:" ;;; throw error).

Definition getCommissionList {P C} (resp : Outcome (list C)) : M P (list C) :=
  try_catch
    (request (mkHttpCall PartnerApi GET "/partner/commissionlist" NoBody []) resp)
    (λ error, console_error "Error fetching commission list:" ;;; throw error).

(** The HTTP calls a computation adds to the trace. *)
Definition issued {P A} (m : M P A) (w : World P) : list HttpCall :=
  drop (length (http_calls (trace w))) (http_calls (trace (after m w))).

(** The mutations a computation adds to the trace. *)
Definition sent {P A} (m : M P A) (w : World P) : list (string * MutationVars) :=
  drop (length (mutations (trace w))) (mutations (trace (after m w))).

(** ** MyEstimates page (src/pages/partners/MyEstimates.tsx) *)

Record MyEstimatesState : Type := mkMyEstimates {
  estimates : list Estimate;
  isLoading : bool
}.

Definition setEstimates (l : list Estimate) : M MyEstimatesState unit :=
  setPage (λ s, mkMyEstimates l (isLoading s)).

Definition setIsLoading (b : bool) : M MyEstimatesState unit :=
  setPage (λ s, mkMyEstimates (estimates s) b).

(** The mount effect: [try { .. } catch { .. } finally { setIsLoading(false) }];
    the catch block does not throw, so the finally block runs last. *)
Definition fetchEstimates (resp : Outcome (list Estimate)) : M MyEstimatesState unit :=
  setIsLoading true ;;;
  try_catch
    (data <- getEstimateList resp ;; setEstimates data)
    (λ err, console_error "Error fetching estimates") ;;;
  setIsLoading false.

(** [rendered] is the [estimates] array of the render whose closure the
    handler is; [answer] is the user's reply to the confirmation dialog. *)
Definition handleDelete (rendered : list Estimate) (id0 : Z) (answer : bool)
    (resp : Outcome string) : M MyEstimatesState unit :=
  confirmed <- window_confirm "정말로 이 견적을 삭제하시겠습니까?" answer ;;
  if confirmed then
    try_catch
      (_ <- deleteEstimate id0 resp ;;
       setEstimates (filter (λ estimate, id estimate ≠ id0) rendered))
      (λ error,
        console_error "Error deleting estimate" ;;;
        alert "견적 삭제 중 오류가 발생했습니다.")
  else ret tt.

(** ** Commission query hooks (src/hooks/useCommissions.ts) *)

Record Commission : Type := mkCommission {
  c_commissionId : Z;
  c_memberNick : string;
  c_size : option JsNumber;
  c_houseType : string;
  c_cleanType : string;
  c_addressId : option JsNumber;
  c_image : string;
  c_desiredDate : string;
  c_significant : string
}.

Inductive QueryData : Type :=
  | ListData (l : list Commission)
  | ItemData (c : Commission).

Record Query : Type := mkQuery {
  data : option QueryData;
  isInvalidated : bool
}.

(** The query client: [invalidateQueries] flags every query whose key the
    filter key is a prefix of; [setQueryData] stores the data under the
    key, fresh. Keys are compared part by part, strings case-sensitively. *)
Definition invalidateQueries (filterKey : list KeyPart)
    (cache : gmap (list KeyPart) Query) : gmap (list KeyPart) Query :=
  map_imap
    (λ key q, Some (if bool_decide (filterKey `prefix_of` key)
                    then mkQuery (data q) true else q))
    cache.

Definition setQueryData (key : list KeyPart) (d : QueryData)
    (cache : gmap (list KeyPart) Query) : gmap (list KeyPart) Query :=
  <[key := mkQuery (Some d) false]> cache.

Definition getQueryData (key : list KeyPart)
    (cache : gmap (list KeyPart) Query) : option QueryData :=
  cache !! key ≫= data.

(** A string key is the one-element array key. *)
Definition useCommissions_key : list KeyPart := [KStr "commissions"].

Definition useCommission_key (id : Z) : list KeyPart := [KStr "commission"; KNum id].

Definition useCreateCommission_key (id : Z) : list KeyPart := [KStr "Commission"; KNum id].

Definition useCreateCommission_onSuccess (newCommission : Commission)
    (cache : gmap (list KeyPart) Query) : gmap (list KeyPart) Query :=
  setQueryData (useCreateCommission_key (c_commissionId newCommission))
    (ItemData newCommission)
    (invalidateQueries [KStr "commissions"] cache).

(** [invalidateQueries] with a string for its first argument, as the
    delete and update hooks call it. Only an array is a query key to the
    client of @tanstack/react-query: a string is taken for the filters and
    carries no key, so every query of the cache matches and is flagged. *)
Definition invalidateQueries_string (filters : string)
    (cache : gmap (list KeyPart) Query) : gmap (list KeyPart) Query :=
  (λ q, mkQuery (data q) true) <$> cache.

Definition useDeleteCommission_onSuccess
    (cache : gmap (list KeyPart) Query) : gmap (list KeyPart) Query :=
  invalidateQueries_string "commissions" cache.

Definition useUpdateCommission_onSuccess (updatedCommission : Commission)
    (cache : gmap (list KeyPart) Query) : gmap (list KeyPart) Query :=
  invalidateQueries_string "commissions"
    (setQueryData [KStr "commission"; KNum (c_commissionId updatedCommission)]
       (ItemData updatedCommission) cache).

(** ** CommissionWrite page (second part of src/api/estimate.ts, lines 100-273) *)

Section CommissionWrite.

(** JavaScript's [Number(value)] on a string. *)
Variable Number : string → JsNumber.

(** [new Date(v).toISOString()]: the ISO string, or [None] where the date
    is invalid and the call throws a RangeError. *)
Variable toISOString : option FormValue → option string.

(** The [useState] initial form; the literal [0] is [Number "0"]. *)
Definition initialForm : gmap string FormValue :=
  list_to_map
    [("size", VNull); ("houseType", VStr ""); ("cleanType", VStr "");
     ("addressId", VNum (Number "0")); ("image", VStr "");
     ("desiredDate", VStr ""); ("significant", VStr "")].

Definition fieldValue (name value : string) : FormValue :=
  if String.eqb name "addressId" || String.eqb name "size"
  then (if String.eqb value "" then VNull else VNum (Number value))
  else VStr value.

(** [setForm((prev) => ({...prev, [name]: ...}))] *)
Definition CommissionWrite_handleChange (name value : string)
    : M (gmap string FormValue) unit :=
  setPage (λ prev, <[name := fieldValue name value]> prev).

(** [form] is the form object of the render whose closure the handler is. *)
Definition CommissionWrite_handleSubmit (form : gmap string FormValue)
    (resp : Outcome Commission) : M (gmap string FormValue) unit :=
  try_catch
    (iso <- match toISOString (form !! "desiredDate") with
            | Some s => ret s
            | None => throw RangeError
            end ;;
     let newCommission := <["desiredDate" := VStr iso]> form in
     _ <- mutateAsync "useCreateCommission" (CommissionVars newCommission) resp ;;
     navigate "/commissionlist")
    (λ error, console_error "Failed to create commission:").

End CommissionWrite.

(** ** PartnerEdit page (src/pages/partners/PartnerEdit.tsx) *)

Section PartnerEdit.

(** The validators of utils/validationUtils, of which the page reads the
    [message] of the result. *)
Variables validatePhoneNumber validatePassword : string → ValidationResult.
Variable validateConfirmPassword : string → string → ValidationResult.

(** The [email] route parameter of [useParams]. *)
Variable emailParam : option string.

Record PartnerEditState : Type := mkPartnerEdit {
  formData : PartnerEditForm;
  errors : FormErrors
}.

Definition setFormData (f : PartnerEditForm → PartnerEditForm)
    : M PartnerEditState unit :=
  setPage (λ s, mkPartnerEdit (f (formData s)) (errors s)).

Definition setErrors (f : FormErrors → FormErrors) : M PartnerEditState unit :=
  setPage (λ s, mkPartnerEdit (formData s) (f (errors s))).

Definition initialPartnerEdit : PartnerEditState :=
  mkPartnerEdit
    (mkPartnerEditForm (default "" emailParam) "" "" "" "" "" "" "INDIVIDUAL")
    (mkFormErrors "" "" "" "" "" "" "" None).

(** The effect on [partner] (lines 65-81). *)
Definition partnerLoaded (partner : Partner) : M PartnerEditState unit :=
  setFormData (λ _,
    mkPartnerEditForm (p_email partner) "" "" (p_phoneNumber partner)
      (p_managerName partner) (p_companyName partner)
      (p_businessType partner) (p_partnerType partner)).

(** [rendered] is the state of the render whose closure the handler is:
    [formData] is read from it, the setters update the current state. *)
Definition PartnerEdit_handleChange (rendered : PartnerEditState)
    (name : FieldName) (value : string) : M PartnerEditState unit :=
  setFormData (λ prev, set_field name value prev) ;;;
  validationResult <-
    match name with
    | F_phoneNumber => ret (Some (validatePhoneNumber value))
    | F_password =>
        (if truthy (confirmPassword (formData rendered))
         then setErrors (λ prev,
                set_error F_confirmPassword
                  (message (validateConfirmPassword value
                              (confirmPassword (formData rendered))))
                  prev)
         else ret tt) ;;;
        ret (Some (validatePassword value))
    | F_confirmPassword =>
        ret (Some (validateConfirmPassword (password (formData rendered)) value))
    | _ => ret None
    end ;;
  match validationResult with
  | Some r => setErrors (λ prev, set_error name (message r) prev)
  | None => setErrors (λ prev, set_error name "" prev)
  end.

Definition PartnerEdit_handleSubmit {A} (rendered : PartnerEditState)
    (resp : Outcome A) : M PartnerEditState unit :=
  if truthy (err_phoneNumber (errors rendered))
     || truthy (err_password (errors rendered))
     || truthy (err_confirmPassword (errors rendered))
     || (truthy (password (formData rendered))
         && bool_decide (password (formData rendered)
                         ≠ confirmPassword (formData rendered)))
  then
    setErrors (λ prev, set_general "입력한 정보를 다시 확인해주세요." prev)
  else
    try_catch
      (let dataToUpdate :=
         mkPartnerUpdate (formData rendered)
           (if truthy (password (formData rendered))
            then Some (password (formData rendered)) else None) in
       _ <- mutateAsync "useUpdatePartner" (PartnerVars dataToUpdate) resp ;;
       navigate ("/pt/" +:+ template_undefined emailParam))
      (λ error,
        console_error "Update Error:" ;;;
        setErrors (λ prev, set_general "회원 정보 수정에 실패했습니다." prev)).

Definition handleWithdraw {P} (answer : bool) (resp : Outcome unit) : M P unit :=
  isConfirmed <-
    window_confirm "정말로 탈퇴하시겠습니까? 이 작업은 되돌릴 수 없습니다." answer ;;
  if isConfirmed then
    try_catch
      (_ <- mutateAsync "useWithdrawPartner" NoVars resp ;;
       alert "회원 탈퇴가 완료되었습니다." ;;;
       removeItem "token" ;;;
       removeItem "refreshToken" ;;;
       navigate "/")
      (λ error,
        console_error "Withdrawal Error:" ;;;
        alert "회원 탈퇴에 실패했습니다.")
  else ret tt.

(** The states of the page: from the initial render, by the partner
    effect and by the handlers, each run on the state it was rendered in. *)
Inductive PartnerEdit_reachable : World PartnerEditState → Prop :=
  | PE_initial w :
      page w = initialPartnerEdit → PartnerEdit_reachable w
  | PE_loaded w partner :
      PartnerEdit_reachable w →
      PartnerEdit_reachable (after (partnerLoaded partner) w)
  | PE_change w name value :
      PartnerEdit_reachable w →
      PartnerEdit_reachable (after (PartnerEdit_handleChange (page w) name value) w)
  | PE_submit w (A : Type) (resp : Outcome A) :
      PartnerEdit_reachable w →
      PartnerEdit_reachable (after (PartnerEdit_handleSubmit (page w) resp) w)
  | PE_withdraw w answer resp :
      PartnerEdit_reachable w →
      PartnerEdit_reachable (after (handleWithdraw answer resp) w).

(** Some field-level error is set. *)
Definition field_error_set (e : FormErrors) : Prop :=
  err_password e ≠ "" ∨ err_confirmPassword e ≠ "" ∨ err_phoneNumber e ≠ ""
  ∨ err_managerName e ≠ "" ∨ err_companyName e ≠ "" ∨ err_businessType e ≠ ""
  ∨ err_partnerType e ≠ "".

(** What the handlers maintain: the fields without a validator never carry
    an error, and the error of a non-empty confirmation is the validator's
    verdict on the two passwords of the form. *)
Definition PartnerEdit_consistent (s : PartnerEditState) : Prop :=
  err_managerName (errors s) = ""
  ∧ err_companyName (errors s) = ""
  ∧ err_businessType (errors s) = ""
  ∧ err_partnerType (errors s) = ""
  ∧ (confirmPassword (formData s) ≠ "" →
     err_confirmPassword (errors s)
     = message (validateConfirmPassword (password (formData s))
                  (confirmPassword (formData s)))).

End PartnerEdit.

(** ** Further observations of the trace *)

Definition navigations (t : list Effect) : list string :=
  omap (λ e, match e with Navigate path => Some path | _ => None end) t.

Definition console_errors (t : list Effect) : list string :=
  omap (λ e, match e with ConsoleError label => Some label | _ => None end) t.

(** The effects a computation adds to the trace. *)
Definition added {P A} (m : M P A) (w : World P) : list Effect :=
  drop (length (trace w)) (trace (after m w)).

(** A call that fails: the error comes back to the caller as it was
    thrown, after one request and one console error, and nothing of
    storage, provider or page has changed. *)
Definition logs_and_rethrows {P A} (m : M P A) (label : string) (e : Exn)
    (w : World P) : Prop :=
  result m w = Thrown e
  ∧ console_errors (added m w) = [label]
  ∧ length (issued m w) = 1
  ∧ storage (after m w) = storage w
  ∧ auth (after m w) = auth w
  ∧ page (after m w) = page w.

(** A call that succeeds: the response data comes back, after one request
    and no console output, and nothing of storage, provider or page has
    changed. *)
Definition returns_data {P A} (m : M P A) (d : A) (w : World P) : Prop :=
  result m w = Returned d
  ∧ console_errors (added m w) = []
  ∧ length (issued m w) = 1
  ∧ storage (after m w) = storage w
  ∧ auth (after m w) = auth w
  ∧ page (after m w) = page w.

(** ** The inputs of the commission form

    The [name] attributes of the inputs CommissionWrite renders (lines
    168-246 of the second part of src/api/estimate.ts): the address input
    is named ["address"] and shows [form.addressId]. *)
Definition CommissionWrite_inputs : list string :=
  ["size"; "houseType"; "cleanType"; "address"; "image"; "desiredDate"; "significant"].

(** A sequence of change events, each handled before the next. *)
Fixpoint CommissionWrite_changes (Number : string → JsNumber)
    (events : list (string * string)) (w : World (gmap string FormValue))
    : World (gmap string FormValue) :=
  match events with
  | [] => w
  | (name, value) :: rest =>
      CommissionWrite_changes Number rest
        (after (CommissionWrite_handleChange Number name value) w)
  end.

(** * Properties *)

(** Runs the monadic primitives of a handler applied to a world. *)
Ltac run_handler :=
  cbv beta iota zeta delta
    [bind ret throw try_catch emit getItem setItem removeItem setAuth setPage
     request mutateAsync window_confirm console_error alert navigate];
  cbn [fst snd storage auth page trace].

(** ** The authentication context *)

Lemma logout_run {P} (w : World P) :
  logout w =
  (Returned tt,
   mkWorld (delete "refreshToken" (delete "token" (storage w)))
     (mkAuthState false None (loading (auth w))) (page w) (trace w)).
Proof. reflexivity. Qed.

Lemma login_run {P} (w : World P) (t r : string) :
  login t r w =
  (Returned tt,
   mkWorld (<["refreshToken" := r]> (<["token" := t]> (storage w)))
     (mkAuthState true (member (auth w)) (loading (auth w))) (page w) (trace w)).
Proof. reflexivity. Qed.

Lemma fetchProfile_success_run {P} (w : World P) (m : Member) :
  fetchProfile (Returned m) w =
  (Returned tt,
   mkWorld (storage w)
     (mkAuthState (isAuthenticated (auth w)) (Some m) (loading (auth w)))
     (page w) (trace w ++ [Http profileCall])).
Proof. reflexivity. Qed.

Lemma fetchProfile_failure_run {P} (w : World P) (e : Exn) :
  fetchProfile (Thrown e) w =
  (Returned tt,
   mkWorld (delete "refreshToken" (delete "token" (storage w)))
     (mkAuthState false None (loading (auth w))) (page w)
     ((trace w ++ [Http profileCall]) ++ [ConsoleError "Failed to fetch profile data:"])).
Proof. reflexivity. Qed.

Lemma tokens_deleted (st : gmap string string) :
  delete "refreshToken" (delete "token" st) !! "token" = None
  ∧ delete "refreshToken" (delete "token" st) !! "refreshToken" = None.
Proof.
  split.
  - rewrite lookup_delete_ne by discriminate. apply lookup_delete_eq.
  - apply lookup_delete_eq.
Qed.

(** C1. For every prior world (any authenticated flag, any member, any
    persisted entries), [logout] returns normally and leaves
    [isAuthenticated = false], [member = null], and neither ['token'] nor
    ['refreshToken'] in storage. *)
Theorem logout_clears_session {P} (w : World P) :
  result logout w = Returned tt
  ∧ isAuthenticated (auth (after logout w)) = false
  ∧ member (auth (after logout w)) = None
  ∧ storage (after logout w) !! "token" = None
  ∧ storage (after logout w) !! "refreshToken" = None.
Proof.
  unfold result, after. rewrite logout_run. cbn [fst snd storage auth isAuthenticated member].
  destruct (tokens_deleted (storage w)) as [Ht Hr]. auto.
Qed.

(** X21. A second [logout] changes nothing: the world after two is the
    world after one. *)
Lemma logout_idempotent {P} (w : World P) :
  after logout (after logout w) = after logout w.
Proof.
  unfold after. rewrite !logout_run. cbn [snd storage auth page trace loading].
  f_equal. apply map_eq. intros k.
  destruct (decide (k = "refreshToken")) as [->|Hr].
  { by rewrite !lookup_delete_eq. }
  destruct (decide (k = "token")) as [->|Ht].
  { rewrite !(lookup_delete_ne _ "refreshToken") by discriminate.
    by rewrite !lookup_delete_eq. }
  by repeat (rewrite lookup_delete_ne by congruence).
Qed.

(** C2. Whatever the request fails with, [fetchProfile] returns normally
    (the error is not re-thrown) and leaves the session as [logout] does:
    same provider state, same storage, hence [isAuthenticated = false],
    [member = null] and both token keys absent. *)
Theorem fetchProfile_failure_is_logout {P} (w : World P) (e : Exn) :
  result (fetchProfile (Thrown e)) w = Returned tt
  ∧ auth (after (fetchProfile (Thrown e)) w) = auth (after logout w)
  ∧ storage (after (fetchProfile (Thrown e)) w) = storage (after logout w)
  ∧ page (after (fetchProfile (Thrown e)) w) = page (after logout w)
  ∧ isAuthenticated (auth (after (fetchProfile (Thrown e)) w)) = false
  ∧ member (auth (after (fetchProfile (Thrown e)) w)) = None
  ∧ storage (after (fetchProfile (Thrown e)) w) !! "token" = None
  ∧ storage (after (fetchProfile (Thrown e)) w) !! "refreshToken" = None.
Proof.
  unfold result, after. rewrite fetchProfile_failure_run, logout_run.
  cbn [fst snd storage auth page isAuthenticated member].
  destruct (tokens_deleted (storage w)) as [Ht Hr]. split_and!; auto.
Qed.

(** C4. For all strings [t] and [r], [login t r] returns normally with
    [isAuthenticated = true], [t] under ['token'] and [r] under
    ['refreshToken'] in storage, every other key as before, [member] as
    before, and the effect trace as before: no request is issued. *)
Theorem login_persists_tokens {P} (w : World P) (t r : string) :
  result (login t r) w = Returned tt
  ∧ isAuthenticated (auth (after (login t r) w)) = true
  ∧ storage (after (login t r) w) !! "token" = Some t
  ∧ storage (after (login t r) w) !! "refreshToken" = Some r
  ∧ (∀ k, storage (after (login t r) w) !! k
          = if decide (k = "refreshToken") then Some r
            else if decide (k = "token") then Some t
            else storage w !! k)
  ∧ member (auth (after (login t r) w)) = member (auth w)
  ∧ trace (after (login t r) w) = trace w
  ∧ http_calls (trace (after (login t r) w)) = http_calls (trace w).
Proof.
  unfold result, after. rewrite login_run.
  cbn [fst snd storage auth trace isAuthenticated member].
  split_and!; auto.
  - rewrite lookup_insert_ne by discriminate. apply lookup_insert_eq.
  - apply lookup_insert_eq.
  - intros k. destruct (decide (k = "refreshToken")) as [->|Hr].
    { apply lookup_insert_eq. }
    rewrite lookup_insert_ne by congruence.
    destruct (decide (k = "token")) as [->|Ht].
    { apply lookup_insert_eq. }
    by rewrite lookup_insert_ne by congruence.
Qed.

Lemma mountEffect_auth {P} (w : World P) :
  auth (after mountEffect w) =
  mkAuthState (truthy_item (storage w !! "token") || isAuthenticated (auth w))
    (member (auth w)) true.
Proof.
  unfold after, mountEffect, bind, getItem, emit, setloading, setAuth. cbn.
  destruct (truthy_item (storage w !! "token")); reflexivity.
Qed.

Lemma mountEffect_001_auth {P} (w : World P) :
  auth (after mountEffect_001 w) =
  mkAuthState (truthy_item (storage w !! "token") || isAuthenticated (auth w))
    (member (auth w)) (loading (auth w)).
Proof.
  unfold after, mountEffect_001, bind, getItem. cbn.
  destruct (truthy_item (storage w !! "token")); [reflexivity|].
  cbn. by destruct (auth w).
Qed.

Lemma run_op_keeps_invariant {P} (w : World P) (op : AuthOp) :
  match op with
  | OpFetchProfile (Returned _) => isAuthenticated (auth w) = true
  | _ => True
  end →
  member_implies_authenticated (auth w) →
  member_implies_authenticated (auth (after (run_op op) w)).
Proof.
  unfold member_implies_authenticated.
  destruct op as [| |t r| |[m|e]]; cbn [run_op]; intros Hg Hinv.
  - rewrite mountEffect_auth. cbn. intros Hm. rewrite (Hinv Hm). apply orb_true_r.
  - rewrite mountEffect_001_auth. cbn. intros Hm. rewrite (Hinv Hm). apply orb_true_r.
  - unfold after. rewrite login_run. reflexivity.
  - unfold after. rewrite logout_run. cbn. congruence.
  - unfold after. rewrite fetchProfile_success_run. cbn. auto.
  - unfold after. rewrite fetchProfile_failure_run. cbn. congruence.
Qed.

(** C3, as amended. From the provider's initial state, along every
    sequence of mount effects, logins, logouts and profile fetches in which
    each successful profile response arrives while [isAuthenticated] is
    true, a non-null [member] implies [isAuthenticated = true]. The success
    path of [fetchProfile] itself stores the profile and leaves
    [isAuthenticated] as it finds it. *)
Theorem member_implies_authenticated_in_session {P} (w : World P)
    (ops : list AuthOp) (m : Member) :
  auth w = initialAuth →
  profiles_arrive_authenticated ops w = true →
  member_implies_authenticated (auth (run_ops ops w))
  ∧ auth (after (fetchProfile (Returned m)) (run_ops ops w))
    = mkAuthState (isAuthenticated (auth (run_ops ops w))) (Some m)
        (loading (auth (run_ops ops w))).
Proof.
  intros Hinit Hops. split; [|reflexivity].
  assert (Hinv : member_implies_authenticated (auth w)).
  { rewrite Hinit. intros Hm. by destruct Hm. }
  clear Hinit. revert w Hops Hinv.
  induction ops as [|op rest IH]; intros w Hops Hinv; cbn [run_ops]; [exact Hinv|].
  cbn [profiles_arrive_authenticated] in Hops.
  apply andb_true_iff in Hops as [Hg Hrest].
  apply IH; [exact Hrest|].
  apply run_op_keeps_invariant; [|exact Hinv].
  destruct op as [| | | |[?|?]]; auto.
Qed.

(** ** The commission hooks *)

Lemma commissions_not_prefix_of_item (s : string) (i : Z) :
  s ≠ "commissions" → ¬ [KStr "commissions"] `prefix_of` [KStr s; KNum i].
Proof.
  intros Hs [rest Heq]. cbn in Heq. injection Heq as Heq _. congruence.
Qed.

Lemma invalidate_lookup_item (s : string) (i : Z) (cache : gmap (list KeyPart) Query) :
  s ≠ "commissions" →
  invalidateQueries [KStr "commissions"] cache !! [KStr s; KNum i]
  = cache !! [KStr s; KNum i].
Proof.
  intros Hs. unfold invalidateQueries. rewrite map_lookup_imap.
  destruct (cache !! [KStr s; KNum i]) as [q|]; [|reflexivity]. cbn.
  rewrite bool_decide_false by by apply commissions_not_prefix_of_item.
  reflexivity.
Qed.

Lemma invalidate_lookup_list (cache : gmap (list KeyPart) Query) :
  invalidateQueries [KStr "commissions"] cache !! useCommissions_key
  = (λ q, mkQuery (data q) true) <$> cache !! useCommissions_key.
Proof.
  unfold invalidateQueries, useCommissions_key. rewrite map_lookup_imap.
  destruct (cache !! [KStr "commissions"]) as [q|]; [|reflexivity]. cbn.
  by rewrite bool_decide_true.
Qed.

Lemma invalidate_string_keeps_data (filters : string) (key : list KeyPart)
    (cache : gmap (list KeyPart) Query) :
  getQueryData key (invalidateQueries_string filters cache) = getQueryData key cache.
Proof.
  unfold getQueryData, invalidateQueries_string. rewrite lookup_fmap.
  by destruct (cache !! key).
Qed.

(** C5. After a successful create, the list query ['commissions'] is
    flagged invalidated and the returned commission is stored under
    ['Commission', id]. That key differs from the key ['commission', id]
    that [useCommission id] reads, whose entry is left as it was: the
    single-commission query does not find the seeded entity. The update
    hook stores its entity under the key [useCommission] reads. *)
Theorem create_seeds_a_key_useCommission_does_not_read
    (c : Commission) (cache : gmap (list KeyPart) Query) :
  useCreateCommission_onSuccess c cache !! useCommissions_key
  = (λ q, mkQuery (data q) true) <$> cache !! useCommissions_key
  ∧ getQueryData (useCreateCommission_key (c_commissionId c))
      (useCreateCommission_onSuccess c cache) = Some (ItemData c)
  ∧ useCreateCommission_key (c_commissionId c) ≠ useCommission_key (c_commissionId c)
  ∧ useCreateCommission_onSuccess c cache !! useCommission_key (c_commissionId c)
    = cache !! useCommission_key (c_commissionId c)
  ∧ getQueryData (useCommission_key (c_commissionId c)) (useCreateCommission_onSuccess c ∅)
    = None
  ∧ getQueryData (useCommission_key (c_commissionId c))
      (useUpdateCommission_onSuccess c cache) = Some (ItemData c).
Proof.
  unfold useUpdateCommission_onSuccess. rewrite invalidate_string_keeps_data.
  unfold useCreateCommission_onSuccess,
    getQueryData, setQueryData, useCreateCommission_key, useCommission_key.
  split_and!.
  - rewrite lookup_insert_ne by discriminate. apply invalidate_lookup_list.
  - by rewrite lookup_insert_eq.
  - discriminate.
  - rewrite lookup_insert_ne by discriminate.
    by apply invalidate_lookup_item.
  - rewrite lookup_insert_ne by discriminate.
    rewrite invalidate_lookup_item by discriminate. by rewrite lookup_empty.
  - by rewrite lookup_insert_eq.
Qed.

(** ** The estimate API module *)

Lemma http_calls_app (t1 t2 : list Effect) :
  http_calls (t1 ++ t2) = http_calls t1 ++ http_calls t2.
Proof. apply omap_app. Qed.

Lemma issued_suffix {P A} (m : M P A) (w : World P) (es : list Effect) :
  trace (after m w) = trace w ++ es → issued m w = http_calls es.
Proof.
  intros H. unfold issued. rewrite H, http_calls_app. apply drop_app_length.
Qed.



(** ** The MyEstimates page *)

Lemma alerts_app (t1 t2 : list Effect) : alerts (t1 ++ t2) = alerts t1 ++ alerts t2.
Proof. apply omap_app. Qed.

Lemma mutations_app (t1 t2 : list Effect) :
  mutations (t1 ++ t2) = mutations t1 ++ mutations t2.
Proof. apply omap_app. Qed.

Lemma sent_suffix {P A} (m : M P A) (w : World P) (es : list Effect) :
  trace (after m w) = trace w ++ es → sent m w = mutations es.
Proof.
  intros H. unfold sent. rewrite H, mutations_app. apply drop_app_length.
Qed.

Lemma handleDelete_success_run (w : World MyEstimatesState)
    (rendered : list Estimate) (id0 : Z) (reply : string) :
  handleDelete rendered id0 true (Returned reply) w =
  (Returned tt,
   mkWorld (storage w) (auth w)
     (mkMyEstimates (filter (λ estimate, id estimate ≠ id0) rendered)
        (isLoading (page w)))
     (trace w
      ++ [Confirm "정말로 이 견적을 삭제하시겠습니까?";
          Http (mkHttpCall PartnerApi DELETE ("/partner/estimate?id=" +:+ pretty id0)
                  NoBody
                  [("Authorization", "Bearer " +:+ template (storage w !! "token"))])])).
Proof.
  unfold handleDelete, deleteEstimate, setEstimates. run_handler.
  rewrite <- app_assoc. reflexivity.
Qed.

Lemma handleDelete_failure_run (w : World MyEstimatesState)
    (rendered : list Estimate) (id0 : Z) (e : Exn) :
  handleDelete rendered id0 true (Thrown e) w =
  (Returned tt,
   mkWorld (storage w) (auth w) (page w)
     (trace w
      ++ [Confirm "정말로 이 견적을 삭제하시겠습니까?";
          Http (mkHttpCall PartnerApi DELETE ("/partner/estimate?id=" +:+ pretty id0)
                  NoBody
                  [("Authorization", "Bearer " +:+ template (storage w !! "token"))]);
          ConsoleError "Error deleting estimate:";
          ConsoleError "Error deleting estimate";
          Alert "견적 삭제 중 오류가 발생했습니다."])).
Proof.
  unfold handleDelete, deleteEstimate. run_handler.
  rewrite <- !app_assoc. reflexivity.
Qed.

(** C7. Once the user has confirmed: when the delete request succeeds,
    the list held by the page becomes the rendered list without the
    entries of that identifier, the other entries kept in their order, and
    no alert is shown; when the request fails, the handler still returns,
    one generic alert is shown and the page state is exactly as before. *)
Theorem handleDelete_after_confirmation (w : World MyEstimatesState)
    (id0 : Z) (reply : string) (e : Exn) :
  result (handleDelete (estimates (page w)) id0 true (Returned reply)) w = Returned tt
  ∧ estimates (page (after (handleDelete (estimates (page w)) id0 true (Returned reply)) w))
    = filter (λ estimate, id estimate ≠ id0) (estimates (page w))
  ∧ (∀ estimate,
       estimate ∈ estimates
         (page (after (handleDelete (estimates (page w)) id0 true (Returned reply)) w))
       ↔ id estimate ≠ id0 ∧ estimate ∈ estimates (page w))
  ∧ alerts (trace (after (handleDelete (estimates (page w)) id0 true (Returned reply)) w))
    = alerts (trace w)
  ∧ result (handleDelete (estimates (page w)) id0 true (Thrown e)) w = Returned tt
  ∧ page (after (handleDelete (estimates (page w)) id0 true (Thrown e)) w) = page w
  ∧ alerts (trace (after (handleDelete (estimates (page w)) id0 true (Thrown e)) w))
    = alerts (trace w) ++ ["견적 삭제 중 오류가 발생했습니다."]
  ∧ map url (issued (handleDelete (estimates (page w)) id0 true (Returned reply)) w)
    = ["/partner/estimate?id=" +:+ pretty id0]
  ∧ map url (issued (handleDelete (estimates (page w)) id0 true (Thrown e)) w)
    = ["/partner/estimate?id=" +:+ pretty id0].
Proof.
  unfold result.
  split_and!.
  - by rewrite handleDelete_success_run.
  - unfold after. by rewrite handleDelete_success_run.
  - intros estimate. unfold after. rewrite handleDelete_success_run.
    cbn [snd page estimates]. by rewrite list_elem_of_filter.
  - unfold after. rewrite handleDelete_success_run. cbn [snd trace].
    rewrite alerts_app. cbn. by rewrite app_nil_r.
  - by rewrite handleDelete_failure_run.
  - unfold after. by rewrite handleDelete_failure_run.
  - unfold after. rewrite handleDelete_failure_run. cbn [snd trace].
    by rewrite alerts_app.
  - erewrite issued_suffix; [|unfold after; by rewrite handleDelete_success_run].
    reflexivity.
  - erewrite issued_suffix; [|unfold after; by rewrite handleDelete_failure_run].
    reflexivity.
Qed.

(** Without confirmation nothing is requested and nothing changes. *)
Lemma handleDelete_declined (w : World MyEstimatesState)
    (rendered : list Estimate) (id0 : Z) (resp : Outcome string) :
  page (after (handleDelete rendered id0 false resp) w) = page w
  ∧ issued (handleDelete rendered id0 false resp) w = [].
Proof.
  split; [reflexivity|].
  erewrite issued_suffix; [|unfold after; cbn; reflexivity]. reflexivity.
Qed.

(** ** The CommissionWrite page *)

(** C8. A change of ['size'] to the empty string stores null under
    ['size'] in the form, and the payload a submit of that form sends
    carries that null; a change of ['size'] to a non-empty string stores
    the number [Number value]. Both changes return normally. *)
Theorem size_empty_is_null
    (Number : string → JsNumber) (toISOString : option FormValue → option string)
    (w : World (gmap string FormValue)) (value : string) (resp : Outcome Commission) :
  value ≠ "" →
  result (CommissionWrite_handleChange Number "size" "") w = Returned tt
  ∧ page (after (CommissionWrite_handleChange Number "size" "") w) !! "size" = Some VNull
  ∧ sent (CommissionWrite_handleSubmit toISOString
            (page (after (CommissionWrite_handleChange Number "size" "") w)) resp)
         (after (CommissionWrite_handleChange Number "size" "") w)
    = match toISOString
              (page (after (CommissionWrite_handleChange Number "size" "") w)
               !! "desiredDate") with
      | Some iso =>
          [("useCreateCommission",
            CommissionVars
              (<["desiredDate" := VStr iso]>
                 (page (after (CommissionWrite_handleChange Number "size" "") w))))]
      | None => []
      end
  ∧ (∀ iso : string,
       <["desiredDate" := VStr iso]>
         (page (after (CommissionWrite_handleChange Number "size" "") w)) !! "size"
       = Some VNull)
  ∧ result (CommissionWrite_handleChange Number "size" value) w = Returned tt
  ∧ page (after (CommissionWrite_handleChange Number "size" value) w) !! "size"
    = Some (VNum (Number value)).
Proof.
  intros Hvalue.
  assert (Hnull : page (after (CommissionWrite_handleChange Number "size" "") w) !! "size"
                  = Some VNull).
  { unfold after, CommissionWrite_handleChange, setPage. cbn [snd page].
    apply lookup_insert_eq. }
  split_and!.
  - reflexivity.
  - exact Hnull.
  - set (w' := after (CommissionWrite_handleChange Number "size" "") w).
    destruct (toISOString (page w' !! "desiredDate")) as [iso|] eqn:Hiso.
    + destruct resp as [c|e].
      * erewrite sent_suffix;
          [|unfold after, CommissionWrite_handleSubmit, try_catch, bind;
            rewrite Hiso; run_handler; rewrite <- ?app_assoc; reflexivity].
        reflexivity.
      * erewrite sent_suffix;
          [|unfold after, CommissionWrite_handleSubmit, try_catch, bind;
            rewrite Hiso; run_handler; rewrite <- ?app_assoc; reflexivity].
        reflexivity.
    + erewrite sent_suffix; [|unfold after, CommissionWrite_handleSubmit, try_catch, bind;
                               rewrite Hiso; cbn; reflexivity].
      reflexivity.
  - intros iso. rewrite lookup_insert_ne by discriminate. exact Hnull.
  - reflexivity.
  - unfold after, CommissionWrite_handleChange, setPage. cbn [snd page].
    rewrite lookup_insert_eq. unfold fieldValue. cbn.
    destruct value; [done|reflexivity].
Qed.

(** ** The PartnerEdit page *)

Lemma truthy_true (s : string) : truthy s = true ↔ s ≠ "".
Proof. destruct s; cbn; split; congruence. Qed.

Lemma truthy_false (s : string) : truthy s = false ↔ s = "".
Proof. destruct s; cbn; split; congruence. Qed.

Lemma PartnerEdit_reachable_consistent
    (validatePhoneNumber validatePassword : string → ValidationResult)
    (validateConfirmPassword : string → string → ValidationResult)
    (emailParam : option string) (w : World PartnerEditState) :
  PartnerEdit_reachable validatePhoneNumber validatePassword
    validateConfirmPassword emailParam w →
  PartnerEdit_consistent validateConfirmPassword (page w).
Proof.
  unfold PartnerEdit_consistent.
  induction 1 as [w Hinit | w partner _ IH | w name value _ IH
                  | w A resp _ IH | w answer resp _ IH].
  - rewrite Hinit. cbn. split_and!; try reflexivity. intros H. by destruct H.
  - destruct IH as (H1 & H2 & H3 & H4 & H5).
    unfold after, partnerLoaded, setFormData. run_handler. cbn.
    split_and!; try assumption. intros H. by destruct H.
  - destruct IH as (H1 & H2 & H3 & H4 & H5).
    unfold after, PartnerEdit_handleChange, setFormData, setErrors.
    destruct name; run_handler; cbn; try (split_and!; (assumption || reflexivity)).
    + destruct (truthy (confirmPassword (formData (page w)))) eqn:Hc;
        run_handler; cbn; split_and!; try assumption; try reflexivity.
      intros Hne. apply truthy_false in Hc. congruence.
  - destruct IH as (H1 & H2 & H3 & H4 & H5).
    unfold after, PartnerEdit_handleSubmit, setErrors.
    destruct (_ || _); [run_handler; cbn; by split_and!|].
    destruct resp; run_handler; cbn; by split_and!.
  - destruct IH as (H1 & H2 & H3 & H4 & H5).
    unfold after, handleWithdraw.
    destruct answer; [destruct resp as [[]|]|]; run_handler; by split_and!.
Qed.

(** C9, as amended. In a state of the partner-edit page in which the
    password is non-empty and differs from the confirmation, or some
    field-level error is set, a submit returns at once: the general error
    becomes the non-empty "check your input" message, the form data stays,
    and the trace of effects is as before, so no update mutation, no
    request and no navigation take place. The submit leaves the
    confirmPassword error as it finds it; that error is non-empty when the
    two passwords differ and a confirmation has been typed (as with "abc"
    against "abcd"). *)
Theorem mismatch_blocks_submit
    (validatePhoneNumber validatePassword : string → ValidationResult)
    (validateConfirmPassword : string → string → ValidationResult)
    (emailParam : option string) (A : Type) (resp : Outcome A)
    (w : World PartnerEditState) :
  reports_mismatch validateConfirmPassword →
  PartnerEdit_reachable validatePhoneNumber validatePassword
    validateConfirmPassword emailParam w →
  (password (formData (page w)) ≠ ""
   ∧ password (formData (page w)) ≠ confirmPassword (formData (page w)))
  ∨ field_error_set (errors (page w)) →
  result (PartnerEdit_handleSubmit emailParam (page w) resp) w = Returned tt
  ∧ err_general (errors (page (after (PartnerEdit_handleSubmit emailParam (page w) resp) w)))
    = Some "입력한 정보를 다시 확인해주세요."
  ∧ truthy "입력한 정보를 다시 확인해주세요." = true
  ∧ trace (after (PartnerEdit_handleSubmit emailParam (page w) resp) w) = trace w
  ∧ sent (PartnerEdit_handleSubmit emailParam (page w) resp) w = []
  ∧ issued (PartnerEdit_handleSubmit emailParam (page w) resp) w = []
  ∧ formData (page (after (PartnerEdit_handleSubmit emailParam (page w) resp) w))
    = formData (page w)
  ∧ err_confirmPassword
      (errors (page (after (PartnerEdit_handleSubmit emailParam (page w) resp) w)))
    = err_confirmPassword (errors (page w))
  ∧ (password (formData (page w)) ≠ confirmPassword (formData (page w)) →
     confirmPassword (formData (page w)) ≠ "" →
     err_confirmPassword (errors (page w)) ≠ "").
Proof.
  intros Hrule Hreach Hcond.
  apply PartnerEdit_reachable_consistent in Hreach as (H1 & H2 & H3 & H4 & H5).
  assert (Hblocked :
    truthy (err_phoneNumber (errors (page w)))
    || truthy (err_password (errors (page w)))
    || truthy (err_confirmPassword (errors (page w)))
    || (truthy (password (formData (page w)))
        && bool_decide (password (formData (page w))
                        ≠ confirmPassword (formData (page w)))) = true).
  { destruct Hcond as [[Hp Hne] | Herr].
    - apply orb_true_iff. right. apply andb_true_iff. split.
      + by apply truthy_true.
      + by apply bool_decide_eq_true.
    - apply orb_true_iff. left.
      destruct Herr as [He | [He | [He | [He | [He | [He | He]]]]]]; try congruence.
      + apply truthy_true in He. rewrite He. by rewrite orb_true_r.
      + apply truthy_true in He. rewrite He. apply orb_true_r.
      + apply truthy_true in He. by rewrite He. }
  assert (Hrun :
    PartnerEdit_handleSubmit emailParam (page w) resp w
    = (Returned tt,
       mkWorld (storage w) (auth w)
         (mkPartnerEdit (formData (page w))
            (set_general "입력한 정보를 다시 확인해주세요." (errors (page w))))
         (trace w))).
  { unfold PartnerEdit_handleSubmit. rewrite Hblocked. reflexivity. }
  unfold sent, issued, result, after. rewrite Hrun. cbn [fst snd page trace formData errors].
  split_and!; try reflexivity.
  - by rewrite drop_all.
  - by rewrite drop_all.
  - intros Hne Hc. rewrite (H5 Hc). by apply Hrule.
Qed.

Lemma handleWithdraw_success_run {P} (w : World P) :
  handleWithdraw true (Returned tt) w
  = (Returned tt,
     mkWorld (delete "refreshToken" (delete "token" (storage w))) (auth w) (page w)
       (trace w
        ++ [Confirm "정말로 탈퇴하시겠습니까? 이 작업은 되돌릴 수 없습니다.";
            Mutate "useWithdrawPartner" NoVars;
            Alert "회원 탈퇴가 완료되었습니다.";
            Navigate "/"])).
Proof. unfold handleWithdraw. run_handler. rewrite <- !app_assoc. reflexivity. Qed.

(** C10. When the user confirms and the withdrawal mutation succeeds, the
    handler returns with ['token'] and ['refreshToken'] removed from
    storage and with the provider's state untouched: [isAuthenticated] and
    [member] are what they were, since the handler never runs the
    context's [logout]. *)
Theorem withdraw_leaves_context_state {P} (w : World P) :
  result (handleWithdraw true (Returned tt)) w = Returned tt
  ∧ storage (after (handleWithdraw true (Returned tt)) w) !! "token" = None
  ∧ storage (after (handleWithdraw true (Returned tt)) w) !! "refreshToken" = None
  ∧ auth (after (handleWithdraw true (Returned tt)) w) = auth w
  ∧ isAuthenticated (auth (after (handleWithdraw true (Returned tt)) w))
    = isAuthenticated (auth w)
  ∧ member (auth (after (handleWithdraw true (Returned tt)) w)) = member (auth w)
  ∧ sent (handleWithdraw true (Returned tt)) w = [("useWithdrawPartner", NoVars)]
  ∧ page (after (handleWithdraw true (Returned tt)) w) = page w.
Proof.
  destruct (tokens_deleted (storage w)) as [Ht Hr].
  split_and!;
    try (unfold result, after; rewrite handleWithdraw_success_run;
         cbn [fst snd storage auth page]; first [reflexivity | assumption]).
  erewrite sent_suffix; [|unfold after; rewrite handleWithdraw_success_run; reflexivity].
  reflexivity.
Qed.

(** After [logout], by contrast, the provider is never authenticated. *)
Lemma withdraw_is_not_logout {P} (w : World P) :
  isAuthenticated (auth w) = true →
  auth (after (handleWithdraw true (Returned tt)) w) ≠ auth (after logout w).
Proof.
  unfold after. rewrite handleWithdraw_success_run, logout_run. cbn [snd auth].
  intros Hauth Heq. rewrite Heq in Hauth. discriminate.
Qed.

(** * Further properties *)

(** ** Session lifecycle *)

Lemma truthy_item_true (v : option string) :
  truthy_item v = true ↔ ∃ t, v = Some t ∧ t ≠ "".
Proof.
  destruct v as [t|]; cbn.
  - rewrite truthy_true. split; [eauto|]. by intros (t' & [= <-] & H).
  - split; [discriminate|]. by intros (t' & [=] & _).
Qed.

Lemma added_suffix {P A} (m : M P A) (w : World P) (es : list Effect) :
  trace (after m w) = trace w ++ es → added m w = es.
Proof. intros H. unfold added. rewrite H. apply drop_app_length. Qed.

(** X1. On a provider that is not yet authenticated, either mount effect
    sets [isAuthenticated] exactly when storage holds a non-empty string
    under ['token'] (an empty string counts as no token); it reads storage
    without changing it, keeps [member], and issues no request: the token
    is not verified. *)
Theorem mount_accepts_any_nonempty_token {P} (w : World P) :
  isAuthenticated (auth w) = false →
  (isAuthenticated (auth (after mountEffect w)) = true
   ↔ ∃ t, storage w !! "token" = Some t ∧ t ≠ "")
  ∧ (isAuthenticated (auth (after mountEffect_001 w)) = true
     ↔ ∃ t, storage w !! "token" = Some t ∧ t ≠ "")
  ∧ member (auth (after mountEffect w)) = member (auth w)
  ∧ member (auth (after mountEffect_001 w)) = member (auth w)
  ∧ storage (after mountEffect w) = storage w
  ∧ storage (after mountEffect_001 w) = storage w
  ∧ added mountEffect w = [ConsoleLog]
  ∧ added mountEffect_001 w = [].
Proof.
  intros Hout. rewrite mountEffect_auth, mountEffect_001_auth. cbn [isAuthenticated member].
  rewrite Hout, orb_false_r.
  split_and!; try reflexivity; try apply truthy_item_true.
  - unfold after, mountEffect. run_handler.
    by destruct (truthy_item (storage w !! "token")).
  - unfold after, mountEffect_001. run_handler.
    by destruct (truthy_item (storage w !! "token")).
  - apply added_suffix. unfold after, mountEffect. run_handler.
    by destruct (truthy_item (storage w !! "token")).
  - apply (added_suffix _ _ []). unfold after, mountEffect_001. run_handler.
    rewrite app_nil_r. by destruct (truthy_item (storage w !! "token")).
Qed.

(** X2. A [logout] after a [login] leaves the world as a [logout] alone
    does: the two tokens just stored are gone again, whatever they were. *)
Theorem logout_undoes_login {P} (w : World P) (t r : string) :
  after logout (after (login t r) w) = after logout w.
Proof.
  unfold after. rewrite login_run, !logout_run. cbn [snd storage auth page trace loading].
  f_equal. apply map_eq. intros k.
  destruct (decide (k = "refreshToken")) as [->|Hr].
  { by rewrite !lookup_delete_eq. }
  destruct (decide (k = "token")) as [->|Ht].
  { rewrite !(lookup_delete_ne _ "refreshToken") by discriminate.
    by rewrite !lookup_delete_eq. }
  repeat (rewrite lookup_delete_ne by congruence).
  by repeat (rewrite lookup_insert_ne by congruence).
Qed.

(** X3. A second [login] replaces what the first one stored: the world
    after both is the world after the second alone. *)
Theorem login_overwrites_login {P} (w : World P) (t1 r1 t2 r2 : string) :
  after (login t2 r2) (after (login t1 r1) w) = after (login t2 r2) w.
Proof.
  unfold after. rewrite !login_run. cbn [snd storage auth page trace loading member].
  f_equal. apply map_eq. intros k.
  destruct (decide (k = "refreshToken")) as [->|Hr].
  { by rewrite !lookup_insert_eq. }
  destruct (decide (k = "token")) as [->|Ht].
  { rewrite !(lookup_insert_ne _ "refreshToken") by discriminate.
    by rewrite !lookup_insert_eq. }
  by repeat (rewrite lookup_insert_ne by congruence).
Qed.

(** X4. After [login t r], a page load (fresh provider state over the
    same storage) followed by the mount effect is authenticated exactly
    when [t] is not the empty string, and has no member: the profile is
    not restored with the session. *)
Theorem session_survives_reload_iff_token_nonempty {P Q}
    (w : World P) (t r : string) (q : Q) :
  isAuthenticated
    (auth (after mountEffect (mkWorld (storage (after (login t r) w)) initialAuth q [])))
  = truthy t
  ∧ isAuthenticated
      (auth (after mountEffect_001
               (mkWorld (storage (after (login t r) w)) initialAuth q [])))
    = truthy t
  ∧ isAuthenticated (auth (after (login t r) w)) = true
  ∧ member (auth (after mountEffect
                    (mkWorld (storage (after (login t r) w)) initialAuth q [])))
    = None.
Proof.
  assert (Htoken : storage (after (login t r) w) !! "token" = Some t).
  { unfold after. rewrite login_run. cbn [snd storage].
    rewrite lookup_insert_ne by discriminate. apply lookup_insert_eq. }
  rewrite mountEffect_auth, mountEffect_001_auth.
  cbn [storage auth isAuthenticated member initialAuth].
  rewrite Htoken. cbn [truthy_item]. rewrite !orb_false_r.
  by split_and!.
Qed.

(** ** The estimate API module, continued *)

Lemma logs_and_rethrows_intro {P A} (m : M P A) (label : string) (e : Exn)
    (w : World P) (c : HttpCall) :
  m w = (Thrown e,
         mkWorld (storage w) (auth w) (page w)
           (trace w ++ [Http c; ConsoleError label])) →
  logs_and_rethrows m label e w.
Proof.
  intros Hrun. unfold logs_and_rethrows, result, added, issued, after.
  rewrite Hrun. cbn [fst snd storage auth page trace].
  rewrite http_calls_app, !drop_app_length. by split_and!.
Qed.

Lemma returns_data_intro {P A} (m : M P A) (d : A) (w : World P) (c : HttpCall) :
  m w = (Returned d,
         mkWorld (storage w) (auth w) (page w) (trace w ++ [Http c])) →
  returns_data m d w.
Proof.
  intros Hrun. unfold returns_data, result, added, issued, after.
  rewrite Hrun. cbn [fst snd storage auth page trace].
  rewrite http_calls_app, !drop_app_length. by split_and!.
Qed.

(** X5. Each function of the estimate API module, when its request
    fails, logs one console error and throws the very error it caught; when
    its request succeeds, it returns the response data and logs nothing.
    Either way it issues one request and changes neither storage nor the
    provider state nor the page. *)
Theorem estimate_api_logs_and_rethrows {P C} (w : World P)
    (estimate : EstimateDraft) (i : Z) (updateData : EstimatePatch) (e : Exn)
    (created updated : Estimate) (reply : string)
    (listed : list Estimate) (commissions : list C) :
  logs_and_rethrows (createEstimate estimate (Thrown e)) "Error creating estimate:" e w
  ∧ logs_and_rethrows (updateEstimate i updateData (Thrown e))
      "Error updating estimate:" e w
  ∧ logs_and_rethrows (deleteEstimate i (Thrown e)) "Error deleting estimate:" e w
  ∧ logs_and_rethrows (getEstimateList (Thrown e)) "Error fetching estimates list:" e w
  ∧ logs_and_rethrows (getCommissionList (C := C) (Thrown e))
      "Error fetching commission list:" e w
  ∧ returns_data (createEstimate estimate (Returned created)) created w
  ∧ returns_data (updateEstimate i updateData (Returned updated)) updated w
  ∧ returns_data (deleteEstimate i (Returned reply)) reply w
  ∧ returns_data (getEstimateList (Returned listed)) listed w
  ∧ returns_data (getCommissionList (Returned commissions)) commissions w.
Proof.
  split_and!;
    first
      [ eapply logs_and_rethrows_intro;
        unfold createEstimate, updateEstimate, deleteEstimate, getEstimateList,
          getCommissionList;
        run_handler; rewrite <- app_assoc; reflexivity
      | eapply returns_data_intro;
        unfold createEstimate, updateEstimate, deleteEstimate, getEstimateList,
          getCommissionList;
        run_handler; reflexivity ].
Qed.



(** ** The MyEstimates page, continued *)

Lemma fetchEstimates_success_run (w : World MyEstimatesState) (listed : list Estimate) :
  fetchEstimates (Returned listed) w =
  (Returned tt,
   mkWorld (storage w) (auth w) (mkMyEstimates listed false)
     (trace w ++ [Http (mkHttpCall PartnerApi GET "/partner/estimate/list" NoBody [])])).
Proof. unfold fetchEstimates, getEstimateList, setIsLoading, setEstimates. by run_handler. Qed.

Lemma fetchEstimates_failure_run (w : World MyEstimatesState) (e : Exn) :
  fetchEstimates (Thrown e) w =
  (Returned tt,
   mkWorld (storage w) (auth w) (mkMyEstimates (estimates (page w)) false)
     (trace w ++ [Http (mkHttpCall PartnerApi GET "/partner/estimate/list" NoBody []);
                  ConsoleError "Error fetching estimates list:";
                  ConsoleError "Error fetching estimates"])).
Proof.
  unfold fetchEstimates, getEstimateList, setIsLoading, setEstimates. run_handler.
  rewrite <- !app_assoc. reflexivity.
Qed.

(** X8. The mount effect of the estimate page always returns and always
    ends with [isLoading = false]. When the list request succeeds the page
    holds the estimates received; when it fails the page keeps the list it
    had, the error is logged twice to the console and the user is shown no
    alert. *)
Theorem fetchEstimates_settles (w : World MyEstimatesState)
    (listed : list Estimate) (e : Exn) :
  result (fetchEstimates (Returned listed)) w = Returned tt
  ∧ page (after (fetchEstimates (Returned listed)) w) = mkMyEstimates listed false
  ∧ result (fetchEstimates (Thrown e)) w = Returned tt
  ∧ page (after (fetchEstimates (Thrown e)) w) = mkMyEstimates (estimates (page w)) false
  ∧ alerts (added (fetchEstimates (Thrown e)) w) = []
  ∧ console_errors (added (fetchEstimates (Thrown e)) w)
    = ["Error fetching estimates list:"; "Error fetching estimates"].
Proof.
  unfold result. split_and!.
  - by rewrite fetchEstimates_success_run.
  - unfold after. by rewrite fetchEstimates_success_run.
  - by rewrite fetchEstimates_failure_run.
  - unfold after. by rewrite fetchEstimates_failure_run.
  - erewrite added_suffix; [|unfold after; by rewrite fetchEstimates_failure_run].
    reflexivity.
  - erewrite added_suffix; [|unfold after; by rewrite fetchEstimates_failure_run].
    reflexivity.
Qed.

(** X10. Two deletions started from one render, both successful: the
    second sets the list from the array of that render, so an estimate the
    first deletion had removed is on the page again. Had the second
    handler been the one of the next render, both estimates would be
    gone. *)
Theorem second_delete_of_a_render_restores_the_first
    (w : World MyEstimatesState) (a b : Z) (ra rb : string) (estimate : Estimate) :
  estimate ∈ estimates (page w) →
  id estimate = a →
  a ≠ b →
  (estimate ∉ estimates
                (page (after (handleDelete (estimates (page w)) a true (Returned ra)) w)))
  ∧ estimates
      (page (after (handleDelete (estimates (page w)) b true (Returned rb))
               (after (handleDelete (estimates (page w)) a true (Returned ra)) w)))
    = filter (λ x, id x ≠ b) (estimates (page w))
  ∧ (estimate ∈ estimates
       (page (after (handleDelete (estimates (page w)) b true (Returned rb))
                (after (handleDelete (estimates (page w)) a true (Returned ra)) w))))
  ∧ (estimate ∉ estimates
       (page (after
                (handleDelete
                   (estimates
                      (page (after (handleDelete (estimates (page w)) a true (Returned ra)) w)))
                   b true (Returned rb))
                (after (handleDelete (estimates (page w)) a true (Returned ra)) w)))).
Proof.
  intros Hin Ha Hab. unfold after. rewrite !handleDelete_success_run.
  cbn [snd page estimates]. rewrite !list_elem_of_filter.
  split_and!; [tauto | reflexivity | congruence | assumption | tauto].
Qed.

(** ** The commission hooks, continued *)

(** X11. A successful delete removes nothing from the cache: every
    query key still returns the data it held, the item [useCommission i]
    reads included, so the deleted commission is still served from the
    cache, and the keys of the cache are the keys it had. *)
Theorem delete_keeps_every_item_cached (cache : gmap (list KeyPart) Query) (i : Z) :
  getQueryData (useCommission_key i) (useDeleteCommission_onSuccess cache)
  = getQueryData (useCommission_key i) cache
  ∧ (∀ key, getQueryData key (useDeleteCommission_onSuccess cache)
            = getQueryData key cache)
  ∧ dom (useDeleteCommission_onSuccess cache) = dom cache.
Proof.
  unfold useDeleteCommission_onSuccess. split_and!.
  - apply invalidate_string_keeps_data.
  - intros key. apply invalidate_string_keeps_data.
  - unfold invalidateQueries_string. apply dom_fmap_L.
Qed.

(** X12. After a successful update the key [useCommission] reads for the
    updated identifier returns the returned commission, and every other
    query key returns the data it returned before. *)
Theorem update_seeds_the_item_useCommission_reads
    (c : Commission) (cache : gmap (list KeyPart) Query) :
  getQueryData (useCommission_key (c_commissionId c)) (useUpdateCommission_onSuccess c cache)
  = Some (ItemData c)
  ∧ (∀ key, key ≠ useCommission_key (c_commissionId c) →
            getQueryData key (useUpdateCommission_onSuccess c cache)
            = getQueryData key cache)
  ∧ (∀ j, j ≠ c_commissionId c →
          getQueryData (useCommission_key j) (useUpdateCommission_onSuccess c cache)
          = getQueryData (useCommission_key j) cache).
Proof.
  unfold useUpdateCommission_onSuccess.
  assert (Hother : ∀ key, key ≠ useCommission_key (c_commissionId c) →
            getQueryData key
              (invalidateQueries_string "commissions"
                 (setQueryData [KStr "commission"; KNum (c_commissionId c)]
                    (ItemData c) cache))
            = getQueryData key cache).
  { intros key Hkey. rewrite invalidate_string_keeps_data.
    unfold getQueryData, setQueryData.
    rewrite lookup_insert_ne; [reflexivity|]. intros Heq. by apply Hkey. }
  split_and!.
  - rewrite invalidate_string_keeps_data. unfold getQueryData, setQueryData, useCommission_key.
    by rewrite lookup_insert_eq.
  - exact Hother.
  - intros j Hj. apply Hother. unfold useCommission_key. congruence.
Qed.

(** X13. A create followed by an update: the single-commission query of
    the updated identifier finds the updated commission, while the copy
    the create stored under its own key stays in the cache as created,
    whatever the update returned. *)
Theorem update_after_create_leaves_the_created_copy
    (created updated : Commission) (cache : gmap (list KeyPart) Query) :
  getQueryData (useCommission_key (c_commissionId updated))
    (useUpdateCommission_onSuccess updated (useCreateCommission_onSuccess created cache))
  = Some (ItemData updated)
  ∧ getQueryData (useCreateCommission_key (c_commissionId created))
      (useUpdateCommission_onSuccess updated (useCreateCommission_onSuccess created cache))
    = Some (ItemData created).
Proof.
  unfold useUpdateCommission_onSuccess. rewrite !invalidate_string_keeps_data.
  unfold getQueryData, useCreateCommission_onSuccess, setQueryData,
    useCommission_key, useCreateCommission_key. split.
  - by rewrite lookup_insert_eq.
  - rewrite lookup_insert_ne by discriminate. by rewrite lookup_insert_eq.
Qed.

(** ** The CommissionWrite page, continued *)

Lemma CommissionWrite_input_is_not_addressId (name : string) :
  name ∈ CommissionWrite_inputs → name ≠ "addressId".
Proof.
  unfold CommissionWrite_inputs. intros Hin ->.
  repeat (apply elem_of_cons in Hin as [Hin|Hin]; [discriminate|]).
  by apply elem_of_nil in Hin.
Qed.

(** X14. No sequence of change events from the inputs the form renders
    changes [addressId]: it stays the initial [0], because the address
    input is named ["address"]. What is typed there is kept under the key
    ["address"] instead. *)
Theorem address_input_never_sets_addressId (Number : string → JsNumber)
    (events : list (string * string)) (w : World (gmap string FormValue))
    (typed : string) :
  page w = initialForm Number →
  Forall (λ ev, ev.1 ∈ CommissionWrite_inputs) events →
  page (CommissionWrite_changes Number events w) !! "addressId"
  = Some (VNum (Number "0"))
  ∧ page (after (CommissionWrite_handleChange Number "address" typed)
            (CommissionWrite_changes Number events w)) !! "address"
    = Some (VStr typed)
  ∧ page (after (CommissionWrite_handleChange Number "address" typed)
            (CommissionWrite_changes Number events w)) !! "addressId"
    = Some (VNum (Number "0")).
Proof.
  intros Hinit Hevents.
  assert (Hstart : page w !! "addressId" = Some (VNum (Number "0"))).
  { rewrite Hinit. reflexivity. }
  clear Hinit.
  assert (Hkept : page (CommissionWrite_changes Number events w) !! "addressId"
                  = Some (VNum (Number "0"))).
  { revert w Hstart. induction Hevents as [|[name value] rest Hname _ IH];
      intros w Hstart; cbn [CommissionWrite_changes]; [exact Hstart|].
    apply IH. unfold after, CommissionWrite_handleChange. run_handler.
    rewrite lookup_insert_ne; [exact Hstart|].
    by apply CommissionWrite_input_is_not_addressId. }
  split_and!; [exact Hkept | |].
  - unfold after, CommissionWrite_handleChange. run_handler.
    by rewrite lookup_insert_eq.
  - unfold after, CommissionWrite_handleChange. run_handler.
    by rewrite lookup_insert_ne.
Qed.

(** X15. A submit of the commission form never throws and never changes
    the form or the storage. It navigates to the commission list exactly
    when the desired date converts and the create mutation succeeds; in
    every other case it logs one console error and stays. With a date that
    does not convert no mutation is sent at all. *)
Theorem commission_submit_navigates_only_on_success
    (toISOString : option FormValue → option string)
    (w : World (gmap string FormValue)) (form : gmap string FormValue)
    (resp : Outcome Commission) :
  result (CommissionWrite_handleSubmit toISOString form resp) w = Returned tt
  ∧ page (after (CommissionWrite_handleSubmit toISOString form resp) w) = page w
  ∧ storage (after (CommissionWrite_handleSubmit toISOString form resp) w) = storage w
  ∧ navigations (added (CommissionWrite_handleSubmit toISOString form resp) w)
    = match toISOString (form !! "desiredDate"), resp with
      | Some _, Returned _ => ["/commissionlist"]
      | _, _ => []
      end
  ∧ console_errors (added (CommissionWrite_handleSubmit toISOString form resp) w)
    = match toISOString (form !! "desiredDate"), resp with
      | Some _, Returned _ => []
      | _, _ => ["Failed to create commission:"]
      end
  ∧ length (sent (CommissionWrite_handleSubmit toISOString form resp) w)
    = match toISOString (form !! "desiredDate") with
      | Some _ => 1
      | None => 0
      end.
Proof.
  unfold added, sent, result, after, CommissionWrite_handleSubmit, try_catch, bind.
  destruct (toISOString (form !! "desiredDate")) as [iso|]; [destruct resp as [c|e]|];
    run_handler; rewrite <- ?app_assoc, ?mutations_app, !drop_app_length;
    by split_and!.
Qed.

(** ** The PartnerEdit page, continued *)


(** X17. When the partner record arrives, the effect empties both password
    fields and leaves the errors alone: a confirmation error on display
    stays, and it still blocks the submit (no mutation is sent, the general
    error is set) although the two passwords are now equal. *)
Theorem partner_effect_keeps_stale_errors (emailParam : option string)
    (w : World PartnerEditState) (partner : Partner) (A : Type) (resp : Outcome A) :
  err_confirmPassword (errors (page w)) ≠ "" →
  password (formData (page (after (partnerLoaded partner) w))) = ""
  ∧ confirmPassword (formData (page (after (partnerLoaded partner) w))) = ""
  ∧ errors (page (after (partnerLoaded partner) w)) = errors (page w)
  ∧ sent (PartnerEdit_handleSubmit emailParam
            (page (after (partnerLoaded partner) w)) resp)
         (after (partnerLoaded partner) w) = []
  ∧ err_general
      (errors (page (after (PartnerEdit_handleSubmit emailParam
                              (page (after (partnerLoaded partner) w)) resp)
                       (after (partnerLoaded partner) w))))
    = Some "입력한 정보를 다시 확인해주세요.".
Proof.
  intros Hstale. apply truthy_true in Hstale.
  unfold sent, after, partnerLoaded, setFormData. run_handler.
  cbn [formData errors password confirmPassword].
  unfold PartnerEdit_handleSubmit. cbn [formData errors]. rewrite Hstale.
  rewrite orb_true_r. cbn [orb]. unfold setErrors. run_handler.
  cbn [errors err_general set_general]. rewrite drop_all. by split_and!.
Qed.

(** X18. The withdrawal removes the tokens only when the mutation
    succeeds. When the mutation fails the handler returns with storage and
    provider state as before, one failure alert and no navigation; when the
    user declines, nothing but the confirmation dialog happens. *)
Theorem withdraw_keeps_tokens_unless_it_succeeds {P} (w : World P) (e : Exn)
    (resp : Outcome unit) :
  result (handleWithdraw true (Thrown e)) w = Returned tt
  ∧ storage (after (handleWithdraw true (Thrown e)) w) = storage w
  ∧ auth (after (handleWithdraw true (Thrown e)) w) = auth w
  ∧ alerts (added (handleWithdraw true (Thrown e)) w) = ["회원 탈퇴에 실패했습니다."]
  ∧ navigations (added (handleWithdraw true (Thrown e)) w) = []
  ∧ storage (after (handleWithdraw false resp) w) = storage w
  ∧ auth (after (handleWithdraw false resp) w) = auth w
  ∧ added (handleWithdraw false resp) w
    = [Confirm "정말로 탈퇴하시겠습니까? 이 작업은 되돌릴 수 없습니다."].
Proof.
  unfold added, result, after, handleWithdraw. run_handler.
  rewrite <- ?app_assoc, !drop_app_length. by split_and!.
Qed.

(** X19. In every state the page can reach, the four fields without a
    validator carry no error, and once a confirmation has been typed the
    confirmation error on display is the validator's message for the two
    passwords now in the form: changing either password re-validates it. *)
Theorem displayed_confirmation_error_is_current
    (validatePhoneNumber validatePassword : string → ValidationResult)
    (validateConfirmPassword : string → string → ValidationResult)
    (emailParam : option string) (w : World PartnerEditState) :
  PartnerEdit_reachable validatePhoneNumber validatePassword
    validateConfirmPassword emailParam w →
  confirmPassword (formData (page w)) ≠ "" →
  err_confirmPassword (errors (page w))
  = message (validateConfirmPassword (password (formData (page w)))
               (confirmPassword (formData (page w))))
  ∧ err_managerName (errors (page w)) = ""
  ∧ err_companyName (errors (page w)) = ""
  ∧ err_businessType (errors (page w)) = ""
  ∧ err_partnerType (errors (page w)) = "".
Proof.
  intros Hreach Htyped.
  apply PartnerEdit_reachable_consistent in Hreach as (H1 & H2 & H3 & H4 & H5).
  split_and!; auto.
Qed.

(** X20. Once a general error is set, no handler clears it: every change
    of a field, the partner effect and the withdrawal keep it as it is, and
    a submit leaves some general error in place. *)
Theorem general_error_is_never_cleared
    (validatePhoneNumber validatePassword : string → ValidationResult)
    (validateConfirmPassword : string → string → ValidationResult)
    (emailParam : option string) (w : World PartnerEditState)
    (name : FieldName) (value : string) (partner : Partner)
    (answer : bool) (withdrawn : Outcome unit) (A : Type) (resp : Outcome A)
    (general : string) :
  err_general (errors (page w)) = Some general →
  err_general
    (errors (page (after (PartnerEdit_handleChange validatePhoneNumber validatePassword
                            validateConfirmPassword (page w) name value) w)))
  = Some general
  ∧ err_general (errors (page (after (partnerLoaded partner) w))) = Some general
  ∧ err_general (errors (page (after (handleWithdraw answer withdrawn) w))) = Some general
  ∧ is_Some (err_general
               (errors (page (after (PartnerEdit_handleSubmit emailParam (page w) resp) w)))).
Proof.
  intros Hgeneral. split_and!.
  - unfold after, PartnerEdit_handleChange, setFormData, setErrors.
    destruct name; run_handler; cbn; try exact Hgeneral.
    destruct (truthy (confirmPassword (formData (page w)))); run_handler; cbn;
      exact Hgeneral.
  - exact Hgeneral.
  - unfold after, handleWithdraw.
    destruct answer; [destruct withdrawn as [[]|]|]; run_handler; exact Hgeneral.
  - unfold after, PartnerEdit_handleSubmit, setErrors.
    destruct (_ || _); [run_handler; cbn; eauto|].
    destruct resp; run_handler; cbn; eauto.
Qed.

End App.

Arguments mkWorld {Member JsNumber P} _ _ _ _.
Arguments storage {Member JsNumber P} _.
Arguments auth {Member JsNumber P} _.
Arguments page {Member JsNumber P} _.
Arguments trace {Member JsNumber P} _.

(** * Concrete runs

    The member profile is a nickname, a JavaScript number is the text it
    was read from, and the mounted page is as each run needs it. *)

Definition sampleNumber (value : string) : string := value.

Definition sampleISO (v : option (@FormValue string)) : option string :=
  match v with
  | Some (VStr s) => if truthy s then Some s else None
  | _ => None
  end.

Definition samplePhone (value : string) : ValidationResult := mkValidationResult "".

Definition samplePassword (value : string) : ValidationResult := mkValidationResult "".

Definition sampleConfirm (password confirmPassword : string) : ValidationResult :=
  mkValidationResult
    (if String.eqb password confirmPassword then "" else "passwords differ").

(** A first render with nothing persisted. *)
Definition signedOut : @World string string unit :=
  mkWorld ∅ initialAuth tt [].

(** A first render with a token left by an earlier visit. *)
Definition returning : @World string string unit :=
  mkWorld (<["token" := "t0"]> ∅) initialAuth tt [].

(** The commission form as first rendered. *)
Definition blankCommission : @World string string (gmap string (@FormValue string)) :=
  mkWorld ∅ initialAuth (initialForm sampleNumber) [].

(** The partner-edit page as first rendered, after typing "abc" as the
    password, and after then typing "abcd" as its confirmation. *)
Definition blankPartnerEdit : @World string string PartnerEditState :=
  mkWorld ∅ initialAuth (initialPartnerEdit (Some "p@clean.kr")) [].

Definition typedPassword : @World string string PartnerEditState :=
  after
    (PartnerEdit_handleChange samplePhone samplePassword sampleConfirm
       (page blankPartnerEdit) F_password "abc")
    blankPartnerEdit.

Definition typedPasswords : @World string string PartnerEditState :=
  after
    (PartnerEdit_handleChange samplePhone samplePassword sampleConfirm
       (page typedPassword) F_confirmPassword "abcd")
    typedPassword.

Example typedPasswords_form :
  password (formData (page typedPasswords)) = "abc"
  ∧ confirmPassword (formData (page typedPasswords)) = "abcd"
  ∧ err_confirmPassword (errors (page typedPasswords)) = "passwords differ".
Proof. vm_compute. auto. Qed.

(** The estimates 41, 42 and 43 on the page of a signed-in partner. *)
Definition threeEstimates : @World string string MyEstimatesState :=
  mkWorld (<["token" := "abc"]> ∅) (mkAuthState true None true)
    (mkMyEstimates
       [mkEstimate 41 7 100 "a" "2024-01-01"; mkEstimate 42 7 200 "b" "2024-01-02";
        mkEstimate 43 8 300 "c" "2024-01-03"]
       false)
    [].

Example logout_after_login :
  after logout (after (login "abc" "xyz") returning)
  = mkWorld ∅ (mkAuthState false None true) tt [].
Proof. vm_compute. reflexivity. Qed.

Example delete_42 :
  map id (estimates (page (after (handleDelete (estimates (page threeEstimates)) 42 true
                                    (Returned "deleted")) threeEstimates)))
  = [41; 43]%Z
  ∧ issued (handleDelete (estimates (page threeEstimates)) 42 true (Returned "deleted"))
      threeEstimates
    = [mkHttpCall PartnerApi DELETE "/partner/estimate?id=42" NoBody
         [("Authorization", "Bearer abc")]].
Proof. vm_compute. auto. Qed.

Example delete_rejected :
  after (handleDelete (estimates (page threeEstimates)) 99 true
           (Thrown (ServerRejection 404))) threeEstimates
  = mkWorld (storage threeEstimates) (auth threeEstimates) (page threeEstimates)
      [Confirm "정말로 이 견적을 삭제하시겠습니까?";
       Http (mkHttpCall PartnerApi DELETE "/partner/estimate?id=99" NoBody
               [("Authorization", "Bearer abc")]);
       ConsoleError "Error deleting estimate:";
       ConsoleError "Error deleting estimate";
       Alert "견적 삭제 중 오류가 발생했습니다."].
Proof. vm_compute. reflexivity. Qed.

(** Without a persisted token the header reads "Bearer null". *)
Example create_without_token :
  issued (createEstimate (mkEstimateDraft 7 100 "a" "2024-01-01")
            (Thrown (ServerRejection 401))) signedOut
  = [mkHttpCall PartnerApi POST "/partner/estimate"
       (DraftBody (mkEstimateDraft 7 100 "a" "2024-01-01"))
       [("Authorization", "Bearer null")]].
Proof. vm_compute. reflexivity. Qed.

(** A signed-in partner who withdraws keeps an authenticated provider
    over an empty storage. *)
Example withdraw_while_signed_in :
  storage (after (handleWithdraw true (Returned tt)) threeEstimates) = ∅
  ∧ auth (after (handleWithdraw true (Returned tt)) threeEstimates)
    = mkAuthState true None true.
Proof. vm_compute. auto. Qed.

(** C3, as stated, fails: on a first render with nothing persisted, the
    mount effect followed by a profile fetch that succeeds leaves a
    non-null member while [isAuthenticated] is false. *)
Lemma member_without_authentication :
  auth signedOut = initialAuth
  ∧ member (auth (run_ops [OpMount; OpFetchProfile (Returned "kim")] signedOut))
    = Some "kim"
  ∧ isAuthenticated (auth (run_ops [OpMount; OpFetchProfile (Returned "kim")] signedOut))
    = false
  ∧ ¬ member_implies_authenticated
        (auth (run_ops [OpMount; OpFetchProfile (Returned "kim")] signedOut)).
Proof.
  split_and!; [reflexivity | vm_compute; reflexivity | vm_compute; reflexivity |].
  intros H.
  assert (Hm : member (auth (run_ops [OpMount; OpFetchProfile (Returned "kim")] signedOut))
               ≠ None) by (vm_compute; discriminate).
  specialize (H Hm). vm_compute in H. discriminate.
Qed.

(** The same state arises when a profile response arrives after a logout. *)
Example profile_after_logout :
  auth (run_ops [OpLogin "t" "r"; OpLogout; OpFetchProfile (Returned "kim")] signedOut)
  = mkAuthState false (Some "kim") true.
Proof. vm_compute. reflexivity. Qed.

Lemma member_implies_authenticated_in_session_witness :
  auth returning = initialAuth
  ∧ profiles_arrive_authenticated [OpMount; OpFetchProfile (Returned "kim")] returning = true
  ∧ (member_implies_authenticated
       (auth (run_ops [OpMount; OpFetchProfile (Returned "kim")] returning))
     ∧ auth (after (fetchProfile (Returned "lee"))
               (run_ops [OpMount; OpFetchProfile (Returned "kim")] returning))
       = mkAuthState
           (isAuthenticated
              (auth (run_ops [OpMount; OpFetchProfile (Returned "kim")] returning)))
           (Some "lee")
           (loading (auth (run_ops [OpMount; OpFetchProfile (Returned "kim")] returning)))).
Proof.
  split; [reflexivity|]. split; [vm_compute; reflexivity|].
  apply (member_implies_authenticated_in_session returning
           [OpMount; OpFetchProfile (Returned "kim")] "lee");
    [reflexivity | vm_compute; reflexivity].
Defined.

(** On the failing input of C5: a commission with identifier 1 created
    into an empty cache is stored under ["Commission"; 1] and is not found
    under the key of [useCommission 1]. *)
Example created_commission_not_found :
  getQueryData (useCommission_key 1)
    (useCreateCommission_onSuccess
       (mkCommission (JsNumber := string) 1 "kim" None "APT" "NORMAL" None "" "" "")
       ∅) = None
  ∧ getQueryData (useCreateCommission_key 1)
      (useCreateCommission_onSuccess
         (mkCommission (JsNumber := string) 1 "kim" None "APT" "NORMAL" None "" "" "")
         ∅)
    = Some (ItemData (mkCommission 1 "kim" None "APT" "NORMAL" None "" "" "")).
Proof. vm_compute. auto. Qed.

Lemma size_empty_is_null_witness :
  "25" ≠ ""
  ∧ (result (CommissionWrite_handleChange sampleNumber "size" "") blankCommission
     = Returned tt
     ∧ page (after (CommissionWrite_handleChange sampleNumber "size" "") blankCommission)
       !! "size" = Some VNull
     ∧ sent (CommissionWrite_handleSubmit sampleISO
               (page (after (CommissionWrite_handleChange sampleNumber "size" "")
                        blankCommission))
               (Thrown NetworkFailure))
            (after (CommissionWrite_handleChange sampleNumber "size" "") blankCommission)
       = match sampleISO
                 (page (after (CommissionWrite_handleChange sampleNumber "size" "")
                          blankCommission) !! "desiredDate") with
         | Some iso =>
             [("useCreateCommission",
               CommissionVars
                 (<["desiredDate" := VStr iso]>
                    (page (after (CommissionWrite_handleChange sampleNumber "size" "")
                             blankCommission))))]
         | None => []
         end
     ∧ (∀ iso : string,
          <["desiredDate" := VStr iso]>
            (page (after (CommissionWrite_handleChange sampleNumber "size" "")
                     blankCommission)) !! "size"
          = Some VNull)
     ∧ result (CommissionWrite_handleChange sampleNumber "size" "25") blankCommission
       = Returned tt
     ∧ page (after (CommissionWrite_handleChange sampleNumber "size" "25") blankCommission)
       !! "size" = Some (VNum (sampleNumber "25"))).
Proof.
  split; [discriminate|].
  apply (size_empty_is_null sampleNumber sampleISO blankCommission "25"
           (Thrown NetworkFailure)).
  discriminate.
Defined.

Lemma sampleConfirm_reports_mismatch : reports_mismatch sampleConfirm.
Proof.
  intros p c Hne. cbn. destruct (String.eqb_spec p c); [contradiction|discriminate].
Defined.

Lemma typedPasswords_reachable :
  PartnerEdit_reachable samplePhone samplePassword sampleConfirm (Some "p@clean.kr")
    typedPasswords.
Proof.
  apply (PE_change samplePhone samplePassword sampleConfirm (Some "p@clean.kr")
           typedPassword F_confirmPassword "abcd").
  apply (PE_change samplePhone samplePassword sampleConfirm (Some "p@clean.kr")
           blankPartnerEdit F_password "abc").
  apply PE_initial. reflexivity.
Defined.

Lemma mismatch_blocks_submit_witness :
  reports_mismatch sampleConfirm
  ∧ PartnerEdit_reachable samplePhone samplePassword sampleConfirm (Some "p@clean.kr")
      typedPasswords
  ∧ ((password (formData (page typedPasswords)) ≠ ""
      ∧ password (formData (page typedPasswords))
        ≠ confirmPassword (formData (page typedPasswords)))
     ∨ field_error_set (errors (page typedPasswords)))
  ∧ (result (PartnerEdit_handleSubmit (Some "p@clean.kr") (page typedPasswords)
               (Returned tt)) typedPasswords = Returned tt
     ∧ err_general
         (errors (page (after (PartnerEdit_handleSubmit (Some "p@clean.kr")
                                 (page typedPasswords) (Returned tt)) typedPasswords)))
       = Some "입력한 정보를 다시 확인해주세요."
     ∧ truthy "입력한 정보를 다시 확인해주세요." = true
     ∧ trace (after (PartnerEdit_handleSubmit (Some "p@clean.kr")
                       (page typedPasswords) (Returned tt)) typedPasswords)
       = trace typedPasswords
     ∧ sent (PartnerEdit_handleSubmit (Some "p@clean.kr") (page typedPasswords)
               (Returned tt)) typedPasswords = []
     ∧ issued (PartnerEdit_handleSubmit (Some "p@clean.kr") (page typedPasswords)
                 (Returned tt)) typedPasswords = []
     ∧ formData (page (after (PartnerEdit_handleSubmit (Some "p@clean.kr")
                                (page typedPasswords) (Returned tt)) typedPasswords))
       = formData (page typedPasswords)
     ∧ err_confirmPassword
         (errors (page (after (PartnerEdit_handleSubmit (Some "p@clean.kr")
                                 (page typedPasswords) (Returned tt)) typedPasswords)))
       = err_confirmPassword (errors (page typedPasswords))
     ∧ (password (formData (page typedPasswords))
        ≠ confirmPassword (formData (page typedPasswords)) →
        confirmPassword (formData (page typedPasswords)) ≠ "" →
        err_confirmPassword (errors (page typedPasswords)) ≠ "")).
Proof.
  split; [exact sampleConfirm_reports_mismatch|].
  split; [exact typedPasswords_reachable|].
  split; [left; vm_compute; split; discriminate|].
  apply (mismatch_blocks_submit samplePhone samplePassword sampleConfirm
           (Some "p@clean.kr") unit (Returned tt) typedPasswords).
  - exact sampleConfirm_reports_mismatch.
  - exact typedPasswords_reachable.
  - left. vm_compute. split; discriminate.
Defined.

Lemma typedPassword_reachable :
  PartnerEdit_reachable samplePhone samplePassword sampleConfirm (Some "p@clean.kr")
    typedPassword.
Proof.
  apply (PE_change samplePhone samplePassword sampleConfirm (Some "p@clean.kr")
           blankPartnerEdit F_password "abc").
  apply PE_initial. reflexivity.
Qed.

(** C9, as stated, fails: once "abc" is typed as the password and nothing
    as its confirmation, the password is non-empty and differs from the
    confirmation and the submit is blocked (general error set, nothing
    sent), yet the confirmPassword error is empty before and after the
    submit: [handleChange] validates the confirmation against a new
    password only when a confirmation has been typed, and [handleSubmit]
    sets no field error. *)
Lemma blocked_without_confirmation_error :
  reports_mismatch sampleConfirm
  ∧ PartnerEdit_reachable samplePhone samplePassword sampleConfirm (Some "p@clean.kr")
      typedPassword
  ∧ password (formData (page typedPassword)) = "abc"
  ∧ confirmPassword (formData (page typedPassword)) = ""
  ∧ password (formData (page typedPassword)) ≠ confirmPassword (formData (page typedPassword))
  ∧ sent (PartnerEdit_handleSubmit (Some "p@clean.kr") (page typedPassword) (Returned tt))
         typedPassword = []
  ∧ err_general
      (errors (page (after (PartnerEdit_handleSubmit (Some "p@clean.kr")
                              (page typedPassword) (Returned tt)) typedPassword)))
    = Some "입력한 정보를 다시 확인해주세요."
  ∧ err_confirmPassword (errors (page typedPassword)) = ""
  ∧ err_confirmPassword
      (errors (page (after (PartnerEdit_handleSubmit (Some "p@clean.kr")
                              (page typedPassword) (Returned tt)) typedPassword)))
    = ""
  ∧ ¬ (err_confirmPassword
         (errors (page (after (PartnerEdit_handleSubmit (Some "p@clean.kr")
                                 (page typedPassword) (Returned tt)) typedPassword)))
       ≠ "").
Proof.
  split; [exact sampleConfirm_reports_mismatch|].
  split; [exact typedPassword_reachable|].
  split_and!; try (vm_compute; reflexivity).
  - vm_compute. discriminate.
  - intros H. apply H. vm_compute. reflexivity.
Qed.

(** ** Concrete runs of the further properties *)

(** The partner-edit page after the blocked submit of "abc" against "abcd". *)
Definition blockedSubmit : @World string string PartnerEditState :=
  after (PartnerEdit_handleSubmit (Some "p@clean.kr") (page typedPasswords) (Returned tt))
    typedPasswords.

Definition samplePartner : Partner :=
  mkPartner "p@clean.kr" "010-1234-5678" "Kim" "Clean Co" "cleaning" "INDIVIDUAL".

Lemma mount_accepts_any_nonempty_token_witness :
  isAuthenticated (auth returning) = false
  ∧ ((isAuthenticated (auth (after mountEffect returning)) = true
      ↔ ∃ t, storage returning !! "token" = Some t ∧ t ≠ "")
     ∧ (isAuthenticated (auth (after mountEffect_001 returning)) = true
        ↔ ∃ t, storage returning !! "token" = Some t ∧ t ≠ "")
     ∧ member (auth (after mountEffect returning)) = member (auth returning)
     ∧ member (auth (after mountEffect_001 returning)) = member (auth returning)
     ∧ storage (after mountEffect returning) = storage returning
     ∧ storage (after mountEffect_001 returning) = storage returning
     ∧ added mountEffect returning = [ConsoleLog]
     ∧ added mountEffect_001 returning = []).
Proof.
  split; [reflexivity|].
  apply (mount_accepts_any_nonempty_token returning). reflexivity.
Defined.


Lemma second_delete_of_a_render_restores_the_first_witness :
  mkEstimate 42 7 200 "b" "2024-01-02" ∈ estimates (page threeEstimates)
  ∧ id (mkEstimate 42 7 200 "b" "2024-01-02") = 42%Z
  ∧ (42 ≠ 43)%Z
  ∧ ((mkEstimate 42 7 200 "b" "2024-01-02"
      ∉ estimates
          (page (after (handleDelete (estimates (page threeEstimates)) 42 true
                          (Returned "ok")) threeEstimates)))
     ∧ estimates
         (page (after (handleDelete (estimates (page threeEstimates)) 43 true (Returned "ok"))
                  (after (handleDelete (estimates (page threeEstimates)) 42 true
                            (Returned "ok")) threeEstimates)))
       = filter (λ x, id x ≠ 43%Z) (estimates (page threeEstimates))
     ∧ (mkEstimate 42 7 200 "b" "2024-01-02"
        ∈ estimates
            (page (after (handleDelete (estimates (page threeEstimates)) 43 true
                            (Returned "ok"))
                     (after (handleDelete (estimates (page threeEstimates)) 42 true
                               (Returned "ok")) threeEstimates))))
     ∧ (mkEstimate 42 7 200 "b" "2024-01-02"
        ∉ estimates
            (page (after
                     (handleDelete
                        (estimates
                           (page (after (handleDelete (estimates (page threeEstimates)) 42
                                           true (Returned "ok")) threeEstimates)))
                        43 true (Returned "ok"))
                     (after (handleDelete (estimates (page threeEstimates)) 42 true
                               (Returned "ok")) threeEstimates))))).
Proof.
  assert (H : mkEstimate 42 7 200 "b" "2024-01-02" ∈ estimates (page threeEstimates)).
  { cbn. repeat constructor. }
  split; [exact H|]. split; [reflexivity|]. split; [discriminate|].
  apply (second_delete_of_a_render_restores_the_first threeEstimates 42 43 "ok" "ok"
           (mkEstimate 42 7 200 "b" "2024-01-02")).
  - exact H.
  - reflexivity.
  - discriminate.
Defined.

Example second_delete_from_one_render :
  map id
    (estimates
       (page (after (handleDelete (estimates (page threeEstimates)) 43 true (Returned "ok"))
                (after (handleDelete (estimates (page threeEstimates)) 42 true
                          (Returned "ok")) threeEstimates))))
  = [41; 42]%Z.
Proof. vm_compute. reflexivity. Qed.

Lemma address_input_never_sets_addressId_witness :
  page blankCommission = initialForm sampleNumber
  ∧ Forall (λ ev, ev.1 ∈ CommissionWrite_inputs) [("size", "25"); ("address", "Seoul")]
  ∧ (page (CommissionWrite_changes sampleNumber [("size", "25"); ("address", "Seoul")]
             blankCommission) !! "addressId"
     = Some (VNum (sampleNumber "0"))
     ∧ page (after (CommissionWrite_handleChange sampleNumber "address" "Busan")
               (CommissionWrite_changes sampleNumber
                  [("size", "25"); ("address", "Seoul")] blankCommission)) !! "address"
       = Some (VStr "Busan")
     ∧ page (after (CommissionWrite_handleChange sampleNumber "address" "Busan")
               (CommissionWrite_changes sampleNumber
                  [("size", "25"); ("address", "Seoul")] blankCommission)) !! "addressId"
       = Some (VNum (sampleNumber "0"))).
Proof.
  assert (H : Forall (λ ev : string * string, ev.1 ∈ CommissionWrite_inputs)
                [("size", "25"); ("address", "Seoul")]).
  { repeat constructor. }
  split; [reflexivity|]. split; [exact H|].
  apply (address_input_never_sets_addressId sampleNumber
           [("size", "25"); ("address", "Seoul")] blankCommission "Busan");
    [reflexivity | exact H].
Defined.


Lemma partner_effect_keeps_stale_errors_witness :
  err_confirmPassword (errors (page typedPasswords)) ≠ ""
  ∧ (password (formData (page (after (partnerLoaded samplePartner) typedPasswords))) = ""
     ∧ confirmPassword (formData (page (after (partnerLoaded samplePartner) typedPasswords)))
       = ""
     ∧ errors (page (after (partnerLoaded samplePartner) typedPasswords))
       = errors (page typedPasswords)
     ∧ sent (PartnerEdit_handleSubmit (Some "p@clean.kr")
               (page (after (partnerLoaded samplePartner) typedPasswords)) (Returned tt))
            (after (partnerLoaded samplePartner) typedPasswords) = []
     ∧ err_general
         (errors (page (after (PartnerEdit_handleSubmit (Some "p@clean.kr")
                                 (page (after (partnerLoaded samplePartner) typedPasswords))
                                 (Returned tt))
                          (after (partnerLoaded samplePartner) typedPasswords))))
       = Some "입력한 정보를 다시 확인해주세요.").
Proof.
  split; [vm_compute; discriminate|].
  apply (partner_effect_keeps_stale_errors (Some "p@clean.kr") typedPasswords
           samplePartner unit (Returned tt)).
  vm_compute. discriminate.
Defined.

Lemma displayed_confirmation_error_is_current_witness :
  PartnerEdit_reachable samplePhone samplePassword sampleConfirm (Some "p@clean.kr")
    typedPasswords
  ∧ confirmPassword (formData (page typedPasswords)) ≠ ""
  ∧ (err_confirmPassword (errors (page typedPasswords))
     = message (sampleConfirm (password (formData (page typedPasswords)))
                  (confirmPassword (formData (page typedPasswords))))
     ∧ err_managerName (errors (page typedPasswords)) = ""
     ∧ err_companyName (errors (page typedPasswords)) = ""
     ∧ err_businessType (errors (page typedPasswords)) = ""
     ∧ err_partnerType (errors (page typedPasswords)) = "").
Proof.
  split; [exact typedPasswords_reachable|].
  split; [vm_compute; discriminate|].
  apply (displayed_confirmation_error_is_current samplePhone samplePassword sampleConfirm
           (Some "p@clean.kr") typedPasswords).
  - exact typedPasswords_reachable.
  - vm_compute. discriminate.
Defined.

Lemma general_error_is_never_cleared_witness :
  err_general (errors (page blockedSubmit)) = Some "입력한 정보를 다시 확인해주세요."
  ∧ (err_general
       (errors (page (after (PartnerEdit_handleChange samplePhone samplePassword
                               sampleConfirm (page blockedSubmit) F_password "abcd")
                        blockedSubmit)))
     = Some "입력한 정보를 다시 확인해주세요."
     ∧ err_general (errors (page (after (partnerLoaded samplePartner) blockedSubmit)))
       = Some "입력한 정보를 다시 확인해주세요."
     ∧ err_general (errors (page (after (handleWithdraw false (Returned tt)) blockedSubmit)))
       = Some "입력한 정보를 다시 확인해주세요."
     ∧ is_Some (err_general
                  (errors (page (after (PartnerEdit_handleSubmit (Some "p@clean.kr")
                                          (page blockedSubmit) (Returned tt))
                                   blockedSubmit))))).
Proof.
  split; [reflexivity|].
  apply (general_error_is_never_cleared samplePhone samplePassword sampleConfirm
           (Some "p@clean.kr") blockedSubmit F_password "abcd" samplePartner false
           (Returned tt) unit (Returned tt) "입력한 정보를 다시 확인해주세요.").
  reflexivity.
Defined.

(** After the password is retyped to match, the confirmation error is
    gone and the general error of the blocked submit is still shown. *)
Example banner_outlives_the_fix :
  errors (page (after (PartnerEdit_handleChange samplePhone samplePassword sampleConfirm
                         (page blockedSubmit) F_password "abcd") blockedSubmit))
  = mkFormErrors "" "" "" "" "" "" "" (Some "입력한 정보를 다시 확인해주세요.").
Proof. vm_compute. reflexivity. Qed.
